(** * Request handlers of the user application (apps/user/views.py)

    A shallow embedding of the view layer of the user application: the
    handlers of [UserViewSet], [UsersActivation], [ResetPassword],
    [ChangePassword] and [TemporaryTokenDestroy], over an explicit model of
    the relational store they read and write.

    The handlers are written in a state-and-exception monad over the store;
    a Python exception that leaves a handler is turned into a response by the
    framework's exception handler, as in the running application. The
    [create] and [list] actions, the login view and the permission viewset
    carry no property below and are left out. *)

From stdpp Require Import gmap strings list fin_maps.

Open Scope Z_scope.
Open Scope string_scope.

(** ** The data model *)

(** A row of the user table. *)
Module User.
Record t := mk {
  id : Z;
  email : string;
  password : string;
  first_name : string;
  last_name : string;
  is_active : bool;
  is_staff : bool;
  is_superuser : bool
}.

(** [instance.is_active = b] *)
Definition set_is_active (b : bool) (u : t) : t :=
  mk (id u) (email u) (password u) (first_name u) (last_name u)
     b (is_staff u) (is_superuser u).

(** [instance.password = p] *)
Definition set_password_hash (p : string) (u : t) : t :=
  mk (id u) (email u) p (first_name u) (last_name u)
     (is_active u) (is_staff u) (is_superuser u).
End User.

(** A row of the action-token table: a key, a purpose tag and the owner
    (a foreign key into the user table). [pk] is the row's primary key,
    the column [Model.save] and [Model.delete] address the row by. *)
Module ActionToken.
Record t := mk {
  pk : Z;
  key : string;
  type : string;
  user : Z;
  expired : bool
}.

Definition set_expired (b : bool) (a : t) : t :=
  mk (pk a) (key a) (type a) (user a) b.
End ActionToken.

(** A row of the temporary-token table. The view looks a token up with
    [pk = key] (the URL segment is used for both), so [key] is the primary
    key of the table. *)
Module TemporaryToken.
Record t := mk {
  key : string;
  user : Z
}.
End TemporaryToken.

(** An email handed to the mail service. *)
Record Email := mkEmail {
  mail_to : string;
  mail_template : string
}.

(** The store: the three tables and the messages sent so far. The user and
    temporary-token tables are keyed by primary key; the action-token table
    is a list of rows, since the activation handler distinguishes one match
    from several. *)
Record World := mkWorld {
  users : gmap Z User.t;
  action_tokens : list ActionToken.t;
  temporary_tokens : gmap string TemporaryToken.t;
  outbox : list Email
}.

Definition with_users (m : gmap Z User.t) (w : World) : World :=
  mkWorld m (action_tokens w) (temporary_tokens w) (outbox w).

Definition with_action_tokens (l : list ActionToken.t) (w : World) : World :=
  mkWorld (users w) l (temporary_tokens w) (outbox w).

Definition with_temporary_tokens (m : gmap string TemporaryToken.t) (w : World)
  : World :=
  mkWorld (users w) (action_tokens w) m (outbox w).

(** ** Requests and responses *)

(** A JSON value of a response body: a message or a list of messages. *)
Inductive JVal :=
| JStr (s : string)
| JList (l : list string).

(** [request.user]: the authenticated user, or Django's [AnonymousUser]. *)
Inductive RequestUser :=
| AnonymousUser
| Authenticated (u : User.t).

(** [AnonymousUser.id] is [None]. *)
Definition user_id (r : RequestUser) : option Z :=
  match r with
  | AnonymousUser => None
  | Authenticated u => Some (User.id u)
  end.

(** [AnonymousUser.is_staff] is [False]. *)
Definition user_is_staff (r : RequestUser) : bool :=
  match r with
  | AnonymousUser => false
  | Authenticated u => User.is_staff u
  end.

(** A request: its user, the JSON object of its body and its query
    parameters. The values the handlers read from the body are strings. *)
Record Request := mkRequest {
  user : RequestUser;
  data : gmap string string;
  query_params : gmap string string
}.

Record Response := mkResponse {
  status_code : Z;
  body : option (gmap string JVal)
}.

Module status.
Definition HTTP_200_OK : Z := 200.
Definition HTTP_201_CREATED : Z := 201.
Definition HTTP_204_NO_CONTENT : Z := 204.
Definition HTTP_400_BAD_REQUEST : Z := 400.
Definition HTTP_401_UNAUTHORIZED : Z := 401.
Definition HTTP_403_FORBIDDEN : Z := 403.
Definition HTTP_404_NOT_FOUND : Z := 404.
Definition HTTP_500_INTERNAL_SERVER_ERROR : Z := 500.
Definition HTTP_501_NOT_IMPLEMENTED : Z := 501.
End status.

(** ** Exceptions and the handler monad *)

Inductive Exn :=
| Http404
| PermissionDenied
| NotAuthenticated
| ValidationError (detail : gmap string JVal)
| DoesNotExist
| TypeError
| IndexError
| AssertionError
| OverflowError.

Inductive Outcome (A : Type) :=
| Return (a : A)
| Raise (e : Exn).
Arguments Return {A} a.
Arguments Raise {A} e.

(** A computation reads and writes the store and either returns or raises.
    Writes made before an exception is raised stay in the store. *)
Definition M (A : Type) : Type := World → World * Outcome A.

Definition ret {A} (a : A) : M A := λ w, (w, Return a).

Definition bind {A B} (m : M A) (k : A → M B) : M B :=
  λ w, match m w with
       | (w', Return a) => k a w'
       | (w', Raise e) => (w', Raise e)
       end.

Definition raise {A} (e : Exn) : M A := λ w, (w, Raise e).

Definition gets {A} (f : World → A) : M A := λ w, (w, Return (f w)).

Definition modify (f : World → World) : M unit := λ w, (f w, Return tt).

(** [try: m except Http404: h] *)
Definition try_except_Http404 {A} (m : M A) (h : M A) : M A :=
  λ w, match m w with
       | (w', Raise Http404) => h w'
       | r => r
       end.

Declare Scope handler_scope.
Delimit Scope handler_scope with handler.
Notation "x <- m ;; k" := (bind m (λ x, k))
  (at level 100, m at next level, right associativity) : handler_scope.
Notation "m ;;; k" := (bind m (λ _, k))
  (at level 100, right associativity) : handler_scope.
Open Scope handler_scope.

(** The framework's translation of an exception that leaves a handler:
    not-found, permission-denied and validation errors become 404, 403 and
    400; a request no authenticator accepted is challenged with 401, as
    token authentication does; an exception the framework does not know is
    a server error. A validation error carries its field errors as the
    body. The body the framework writes for the other exceptions, a
    mapping with a translated message under the key detail, is not
    modelled: [body] is [None] there, and no statement below is about
    it. *)
Definition exception_handler (e : Exn) : Response :=
  match e with
  | Http404 => mkResponse status.HTTP_404_NOT_FOUND None
  | PermissionDenied => mkResponse status.HTTP_403_FORBIDDEN None
  | NotAuthenticated => mkResponse status.HTTP_401_UNAUTHORIZED None
  | ValidationError d => mkResponse status.HTTP_400_BAD_REQUEST (Some d)
  | DoesNotExist | TypeError | IndexError | AssertionError | OverflowError =>
      mkResponse status.HTTP_500_INTERNAL_SERVER_ERROR None
  end.

(** What the client receives, and the store the request leaves behind. *)
Definition respond (m : M Response) (w : World) : World * Response :=
  match m w with
  | (w', Return r) => (w', r)
  | (w', Raise e) => (w', exception_handler e)
  end.

(** ** Views

    A view object holds the action the router resolved and the keyword
    arguments of the URL. A keyword argument is the URL segment (a string)
    until a handler overwrites it. *)

Inductive KwVal :=
| KwStr (s : string)
| KwInt (z : Z)
| KwNone.

#[global] Instance KwVal_eq_dec : EqDecision KwVal.
Proof. solve_decision. Defined.

Record View := mkView {
  action : string;
  kwargs : gmap string KwVal
}.

(** An object a permission class is asked about. *)
Inductive Obj :=
| UserObj (u : User.t)
| TemporaryTokenObj (t : TemporaryToken.t).

Inductive PermissionClass :=
| IsAdminUser
| IsAuthenticated
| IsOwner.

(** ** What the views import from the rest of the project

    [views.py] relies on the serializers, the permission classes, the model
    methods and the settings of the project, and on the framework's filter
    backends and field coercions. Each is an interface here; the handlers
    and their theorems are stated for every implementation. *)

(** The two serializer classes [get_serializer_class] chooses between. *)
Inductive SerializerClass :=
| UserSerializer
| UserUpdateSerializer.

Class Serializers := {
  (** [Serializer(instance, context={'request': request}).data] *)
  serializer_data : SerializerClass → Request → User.t → gmap string JVal;
  (** [Serializer(instance, data=request.data, partial=partial)]: the
      errors of [is_valid], or the instance as [save] is about to write it *)
  serializer_update :
    SerializerClass → World → Request → bool → User.t →
    gmap string JVal + User.t;
  (** [ResetPasswordSerializer(data=request.data)]: [errors], or the user
      [validated_data] holds *)
  ResetPasswordSerializer : World → Request → gmap string JVal + User.t;
  (** [ChangePasswordSerializer(data=request.data)]: [errors] when the data
      is not valid *)
  ChangePasswordSerializer : World → Request → option (gmap string JVal)
}.

Class Permissions := {
  (** [permissions.IsOwner.has_object_permission(request, view, obj)] *)
  IsOwner_has_object_permission : Request → View → Obj → bool
}.

Class Framework := {
  (** the rows the filter backends keep, [filter_fields = '__all__'] *)
  filter_backends : Request → User.t → bool;
  (** the coercion of a URL segment to an integer primary key; [None] when
      it raises [ValueError] *)
  to_python : string → option Z;
  (** [django.contrib.auth.hashers.make_password] *)
  make_password : option string → string
}.

(** A Python value of the settings module. *)
Inductive PyVal :=
| PyNone
| PyBool (b : bool)
| PyInt (z : Z)
| PyStr (s : string).

(** [v is True] *)
Definition is_True (v : PyVal) : bool :=
  match v with
  | PyBool true => true
  | _ => false
  end.

Class Settings := {
  (** [settings.LOCAL_SETTINGS['EMAIL_SERVICE']] *)
  EMAIL_SERVICE : PyVal;
  (** [REST_FRAMEWORK['DEFAULT_PERMISSION_CLASSES']], for the views that
      name no permission classes of their own *)
  DEFAULT_PERMISSION_CLASSES : list PermissionClass
}.

Class Models := {
  (** [User.send_reset_password()] *)
  send_reset_password : User.t → M unit;
  (** the field-level detail of the error a key with no valid
      password-change token is refused with *)
  invalid_token_detail : option string → gmap string JVal
}.

(** ** The object-relational layer *)

(** [User.objects.get(pk=k)], also what following a foreign key does. *)
Definition User_objects_get (k : Z) : M User.t :=
  λ w, match users w !! k with
       | Some u => (w, Return u)
       | None => (w, Raise DoesNotExist)
       end.

(** [user.save()]: the row with the instance's primary key now holds the
    instance's fields. *)
Definition User_save (u : User.t) : M unit :=
  modify (λ w, with_users (<[User.id u := u]> (users w)) w).

(** A [filter(key=..., ...)] argument against a key column: [None] (the
    request named no key) compares with [IS NULL] and matches no row. *)
Definition key_is (k : option string) (col : string) : Prop := k = Some col.

#[global] Instance key_is_dec k col : Decision (key_is k col).
Proof. unfold key_is. apply _. Defined.

(** [ActionToken.objects.filter(key=k, type=ty)], evaluated. *)
Definition ActionToken_objects_filter (k : option string) (ty : string)
  : M (list ActionToken.t) :=
  gets (λ w, filter (λ a, key_is k (ActionToken.key a) ∧ ActionToken.type a = ty)
                    (action_tokens w)).

(** [token.user] *)
Definition ActionToken_user (a : ActionToken.t) : M User.t :=
  User_objects_get (ActionToken.user a).

(** [token.delete()]: the rows with the instance's primary key go. *)
Definition ActionToken_delete (a : ActionToken.t) : M unit :=
  modify (λ w, with_action_tokens
                 (filter (λ b, ActionToken.pk b ≠ ActionToken.pk a)
                         (action_tokens w)) w).

(** [str(x)] of an optional string: [None] prints as its name. *)
Definition py_str (x : option string) : string :=
  match x with
  | Some s => s
  | None => "None"
  end.

Definition dquote : string := String (Ascii.ascii_of_nat 34) EmptyString.

(** ** UsersActivation *)

Module UsersActivation.
Section Handlers.
Context `{Serializers}.

(** The message: the token as [str] prints it, between double quotes,
    then the fixed text. *)
Definition error (activation_token : option string) : string :=
  dquote +:+ py_str activation_token +:+ dquote
    +:+ " is not a valid activation_token.".

Definition post (request : Request) : M Response :=
  let activation_token := data request !! "activation_token" in
  token <- ActionToken_objects_filter activation_token "account_activation" ;;
  if (length token =? 1)%nat then
    match token !! 0%nat with
    | Some token0 =>
        user <- ActionToken_user token0 ;;
        let user := User.set_is_active true user in
        User_save user ;;;
        ActionToken_delete token0 ;;;
        ret (mkResponse status.HTTP_200_OK
               (Some (serializer_data UserSerializer request user)))
    | None => raise IndexError
    end
  else
    ret (mkResponse status.HTTP_400_BAD_REQUEST
           (Some {[ "activation_token" := JStr (error activation_token) ]})).
End Handlers.
End UsersActivation.

(** ** Permission checks of the framework *)

Section PermissionChecks.
Context `{Permissions}.

(** [BasePermission.has_object_permission] returns [True]; of the three
    classes only [IsOwner] overrides it. *)
Definition has_object_permission
    (p : PermissionClass) (request : Request) (self : View) (obj : Obj) : bool :=
  match p with
  | IsOwner => IsOwner_has_object_permission request self obj
  | IsAdminUser | IsAuthenticated => true
  end.

(** [APIView.permission_denied]: a request no authenticator accepted is
    not authenticated, any other is denied. *)
Definition permission_denied {A} (request : Request) : M A :=
  match user request with
  | AnonymousUser => raise NotAuthenticated
  | Authenticated _ => raise PermissionDenied
  end.

(** [APIView.check_object_permissions] over the view's permissions *)
Definition check_object_permissions
    (perms : list PermissionClass) (self : View) (request : Request) (obj : Obj)
  : M unit :=
  if forallb (λ p, has_object_permission p request self obj) perms
  then ret tt
  else permission_denied request.
End PermissionChecks.

(** ** UserViewSet *)

Module UserViewSet.
(** A queryset over the user table is lazy: a predicate on rows, run
    against the table when an object is fetched. *)
Definition QuerySet : Type := User.t → bool.

Definition kw_of_id (i : option Z) : KwVal :=
  match i with
  | Some z => KwInt z
  | None => KwNone
  end.

(** The handlers the router binds to the detail route of a user, for
    GET, PUT, PATCH and DELETE. *)
Inductive DetailHandler :=
| Retrieve
| Update
| PartialUpdate
| Destroy.

Section Handlers.
Context `{Serializers, Permissions, Framework}.

Definition get_serializer_class (self : View) : SerializerClass :=
  if bool_decide (action self = "update")
     || bool_decide (action self = "partial_update")
  then UserUpdateSerializer
  else UserSerializer.

(** Returns the view too: [self.kwargs] may have been overwritten. *)
Definition get_queryset (self : View) (request : Request) : View * QuerySet :=
  let user := user request in
  let queryset : QuerySet := λ _, true in
  if bool_decide (default (KwStr "") (kwargs self !! "pk") = KwStr "me")
  then (mkView (action self) (<["pk" := kw_of_id (user_id user)]> (kwargs self)),
        queryset)
  else (self, queryset).

Definition get_permissions (self : View) : list PermissionClass :=
  if bool_decide (action self = "create") then []
  else if bool_decide (action self = "list") then [IsAdminUser]
  else [IsAuthenticated; IsOwner].

(** [GenericAPIView.filter_queryset] *)
Definition filter_queryset (request : Request) (queryset : QuerySet) : QuerySet :=
  λ u, queryset u && filter_backends request u.

(** The primary key a lookup value stands for, if any: a string that
    does not coerce, or [None], finds no row. *)
Definition pk_value (v : KwVal) : option Z :=
  match v with
  | KwInt z => Some z
  | KwStr s => to_python s
  | KwNone => None
  end.

(** The integers the database binds as a key: the signed 64-bit ones. *)
Definition in_int64 (k : Z) : bool :=
  ((- 2 ^ 63 <=? k)%Z && (k <? 2 ^ 63)%Z)%bool.

(** [get_object_or_404(queryset, pk=v)]. A value that does not coerce
    ([ValueError], [TypeError]) and a key that no row of the queryset has
    ([DoesNotExist]) are turned into [Http404]. A key outside the signed
    64-bit range cannot be bound to the query: the driver raises
    [OverflowError], which is not among the exceptions turned into
    [Http404]. No stored row has such a key, so the test stands on the
    branch where no row is found. *)
Definition get_object_or_404 (queryset : QuerySet) (v : KwVal) : M User.t :=
  λ w, match pk_value v with
       | Some k =>
           match users w !! k with
           | Some u => if queryset u then (w, Return u) else (w, Raise Http404)
           | None =>
               if in_int64 k then (w, Raise Http404)
               else (w, Raise OverflowError)
           end
       | None => (w, Raise Http404)
       end.

(** [GenericAPIView.get_object] *)
Definition get_object (self : View) (request : Request) : M User.t :=
  let '(self, queryset) := get_queryset self request in
  let queryset := filter_queryset request queryset in
  match kwargs self !! "pk" with
  | None => raise AssertionError
  | Some v =>
      obj <- get_object_or_404 queryset v ;;
      check_object_permissions (get_permissions self) self request (UserObj obj) ;;;
      ret obj
  end.

(** [RetrieveModelMixin.retrieve] *)
Definition super_retrieve (self : View) (request : Request) : M Response :=
  instance <- get_object self request ;;
  ret (mkResponse status.HTTP_200_OK
         (Some (serializer_data (get_serializer_class self) request instance))).

Definition retrieve (self : View) (request : Request) : M Response :=
  if user_is_staff (user request) then super_retrieve self request
  else try_except_Http404 (super_retrieve self request) (raise PermissionDenied).

Definition destroy (self : View) (request : Request) : M Response :=
  try_except_Http404
    (instance <- get_object self request ;;
     let instance := User.set_is_active false instance in
     User_save instance)
    (ret tt) ;;;
  ret (mkResponse status.HTTP_204_NO_CONTENT None).

(** [UpdateModelMixin.update] *)
Definition super_update (self : View) (request : Request) (partial : bool)
  : M Response :=
  instance <- get_object self request ;;
  w <- gets (λ w, w) ;;
  let cls := get_serializer_class self in
  match serializer_update cls w request partial instance with
  | inl errors => raise (ValidationError errors)
  | inr instance =>
      User_save instance ;;;
      ret (mkResponse status.HTTP_200_OK
             (Some (serializer_data cls request instance)))
  end.

Definition update (self : View) (request : Request) (partial : bool)
  : M Response :=
  if user_is_staff (user request) then super_update self request partial
  else try_except_Http404 (super_update self request partial)
                          (raise PermissionDenied).

(** [UpdateModelMixin.partial_update]: [update] with [partial=True] *)
Definition partial_update (self : View) (request : Request) : M Response :=
  update self request true.

(** The handler of a detail route; PUT updates with [partial=False]. *)
Definition handle (h : DetailHandler) (self : View) (request : Request)
  : M Response :=
  match h with
  | Retrieve => retrieve self request
  | Update => update self request false
  | PartialUpdate => partial_update self request
  | Destroy => destroy self request
  end.
End Handlers.
End UserViewSet.

(** ** ResetPassword *)

Module ResetPassword.
Section Handlers.
Context `{Serializers, Settings, Models}.

Definition post (request : Request) : M Response :=
  if negb (is_True EMAIL_SERVICE) then
    ret (mkResponse status.HTTP_501_NOT_IMPLEMENTED None)
  else
    w <- gets (λ w, w) ;;
    match ResetPasswordSerializer w request with
    | inr user =>
        send_reset_password user ;;;
        ret (mkResponse status.HTTP_201_CREATED None)
    | inl errors =>
        ret (mkResponse status.HTTP_400_BAD_REQUEST (Some errors))
    end.
End Handlers.
End ResetPassword.

(** ** ChangePassword *)

(** [AbstractBaseUser.set_password(raw_password)] *)
Definition set_password `{Framework} (raw_password : option string) (u : User.t)
  : User.t :=
  User.set_password_hash (make_password raw_password) u.

(** Modelled from the spec: [ActionToken.get_password_change_token] and
    [ActionToken.expire] are methods of the model and are not part of the
    view module. The specification describes an action token as a
    single-use key with a purpose tag, consumed (deleted or expired) after
    one successful use, and says that using a token with zero or multiple
    matches is an error. A token is valid for a password change when it has
    the key, the purpose tag [password_change], and has not expired. *)
Definition password_change_tokens (k : option string) (l : list ActionToken.t)
  : list ActionToken.t :=
  filter (λ a, key_is k (ActionToken.key a)
               ∧ ActionToken.type a = "password_change"
               ∧ ActionToken.expired a = false) l.

(** Modelled from the spec: the one valid password-change token with the
    key; zero or several matches are an error, reported as a validation
    error (status 400). *)
Definition ActionToken_get_password_change_token `{Models} (k : option string)
  : M ActionToken.t :=
  λ w, match password_change_tokens k (action_tokens w) with
       | [a] => (w, Return a)
       | _ => (w, Raise (ValidationError (invalid_token_detail k)))
       end.

(** [token.save()]: the rows with the instance's primary key now hold the
    instance's fields; an instance with a new primary key is inserted. *)
Definition ActionToken_save (a : ActionToken.t) : M unit :=
  modify (λ w,
    let l := action_tokens w in
    if existsb (λ b, bool_decide (ActionToken.pk b = ActionToken.pk a)) l
    then with_action_tokens
           ((λ b, if bool_decide (ActionToken.pk b = ActionToken.pk a)
                  then a else b) <$> l) w
    else with_action_tokens (l ++ [a]) w).

(** Modelled from the spec: [token.expire()] marks the token expired and
    saves it. *)
Definition ActionToken_expire (a : ActionToken.t) : M unit :=
  ActionToken_save (ActionToken.set_expired true a).

Module ChangePassword.
Section Handlers.
Context `{Serializers, Framework, Models}.

Definition post (request : Request) : M Response :=
  w <- gets (λ w, w) ;;
  match ChangePasswordSerializer w request with
  | Some errors => raise (ValidationError errors)
  | None =>
      let token_key := data request !! "token" in
      let new_password := data request !! "new_password" in
      token <- ActionToken_get_password_change_token token_key ;;
      user <- ActionToken_user token ;;
      let user := set_password new_password user in
      User_save user ;;;
      ActionToken_expire token ;;;
      ret (mkResponse status.HTTP_200_OK
             (Some (serializer_data UserSerializer request user)))
  end.
End Handlers.
End ChangePassword.

(** ** TemporaryTokenDestroy *)

Module TemporaryTokenDestroy.
(** A lazy queryset over the temporary-token table. *)
Definition QuerySet : Type := TemporaryToken.t → bool.

Section Handlers.
Context `{Permissions, Settings}.

(** [filter(key=key, user=self.request.user)]. Building the filter
    coerces the user to a primary key, which raises for
    [AnonymousUser]. *)
Definition get_queryset (self : View) (request : Request) : M QuerySet :=
  let key := kwargs self !! "pk" in
  match user request with
  | AnonymousUser => raise TypeError
  | Authenticated u =>
      ret (λ t, bool_decide (key = Some (KwStr (TemporaryToken.key t)))
                && bool_decide (TemporaryToken.user t = User.id u))
  end.

(** [get_object_or_404(queryset, pk=v)]: the key is the primary key *)
Definition get_object_or_404 (queryset : QuerySet) (v : KwVal)
  : M TemporaryToken.t :=
  λ w, match v with
       | KwStr s =>
           match temporary_tokens w !! s with
           | Some t => if queryset t then (w, Return t) else (w, Raise Http404)
           | None => (w, Raise Http404)
           end
       | KwInt _ | KwNone => (w, Raise Http404)
       end.

(** [GenericAPIView.get_object]; the view names no filter fields, so
    the filter backends keep every row. *)
Definition get_object (self : View) (request : Request) : M TemporaryToken.t :=
  queryset <- get_queryset self request ;;
  match kwargs self !! "pk" with
  | None => raise AssertionError
  | Some v =>
      obj <- get_object_or_404 queryset v ;;
      check_object_permissions DEFAULT_PERMISSION_CLASSES self request
        (TemporaryTokenObj obj) ;;;
      ret obj
  end.

(** [instance.delete()] *)
Definition TemporaryToken_delete (t : TemporaryToken.t) : M unit :=
  modify (λ w, with_temporary_tokens
                 (delete (TemporaryToken.key t) (temporary_tokens w)) w).

(** [DestroyModelMixin.destroy] *)
Definition destroy (self : View) (request : Request) : M Response :=
  instance <- get_object self request ;;
  TemporaryToken_delete instance ;;;
  ret (mkResponse status.HTTP_204_NO_CONTENT None).
End Handlers.
End TemporaryTokenDestroy.

(** ** Consistency of the store *)

(** Every row of the user table is stored under its own primary key. *)
Definition users_keyed (w : World) : Prop :=
  map_Forall (λ k u, User.id u = k) (users w).

#[global] Instance users_keyed_dec w : Decision (users_keyed w).
Proof. unfold users_keyed. apply _. Defined.


(** ** The permission gate of the framework

    Before a handler runs, [APIView.initial] asks every permission class of
    the view for [has_permission]; the first refusal raises. *)

Class ViewPermissions := {
  (** [permissions.IsOwner.has_permission(request, view)] *)
  IsOwner_has_permission : Request → View → bool
}.

(** [request.user.is_authenticated] *)
Definition user_is_authenticated (r : RequestUser) : bool :=
  match r with
  | AnonymousUser => false
  | Authenticated _ => true
  end.

Section PermissionGate.
Context `{Permissions, ViewPermissions}.

(** [IsAuthenticated] asks for an authenticated user, [IsAdminUser] for a
    staff user. *)
Definition has_permission (p : PermissionClass) (request : Request) (self : View)
  : bool :=
  match p with
  | IsAuthenticated => user_is_authenticated (user request)
  | IsAdminUser => user_is_staff (user request)
  | IsOwner => IsOwner_has_permission request self
  end.

(** [APIView.check_permissions] over the view's permissions *)
Definition check_permissions
    (perms : list PermissionClass) (self : View) (request : Request) : M unit :=
  if forallb (λ p, has_permission p request self) perms
  then ret tt
  else permission_denied request.
End PermissionGate.

(** ** ObtainTemporaryAuthToken *)

Class Login := {
  (** [CustomAuthTokenSerializer(data=request.data, context=...)]: [errors],
      or the user under the key user of [validated_data] *)
  CustomAuthTokenSerializer : World → Request → gmap string JVal + User.t;
  (** [User.get_temporary_token()] *)
  get_temporary_token : User.t → M TemporaryToken.t
}.

Module ObtainTemporaryAuthToken.
Section Handlers.
Context `{Login}.

Definition post (request : Request) : M Response :=
  w <- gets (λ w, w) ;;
  match CustomAuthTokenSerializer w request with
  | inl errors => raise (ValidationError errors)
  | inr user =>
      token <- get_temporary_token user ;;
      let data : gmap string JVal :=
        {[ "token" := JStr (TemporaryToken.key token) ]} in
      ret (mkResponse status.HTTP_200_OK (Some data))
  end.
End Handlers.
End ObtainTemporaryAuthToken.
(** ** A small project to run the handlers on

    One implementation of each interface, and a store with two users, used
    to evaluate the handlers on concrete requests. *)

Module Fixtures.
(** The value of a decimal digit. *)
Definition digit_of (c : Ascii.ascii) : option Z :=
  let n := Z.of_nat (Ascii.nat_of_ascii c) in
  if ((48 <=? n)%Z && (n <=? 57)%Z)%bool then Some (n - 48)%Z else None.

Fixpoint parse_digits (acc : Z) (s : string) : option Z :=
  match s with
  | EmptyString => Some acc
  | String c s' =>
      match digit_of c with
      | Some d => parse_digits (10 * acc + d)%Z s'
      | None => None
      end
  end.

(** A primary key written in decimal. *)
Definition parse_pk (s : string) : option Z :=
  match s with
  | EmptyString => None
  | _ => parse_digits 0 s
  end.

Definition user_fields (u : User.t) : gmap string JVal :=
  {[ "email" := JStr (User.email u) ]}.

(** An update sets the first name when the data names one, and refuses an
    empty one. *)
Definition update_fields (request : Request) (u : User.t)
  : gmap string JVal + User.t :=
  match data request !! "first_name" with
  | Some EmptyString => inl {[ "first_name" := JList ["This field may not be blank."] ]}
  | Some n =>
      inr (User.mk (User.id u) (User.email u) (User.password u) n
             (User.last_name u) (User.is_active u) (User.is_staff u)
             (User.is_superuser u))
  | None => inr u
  end.

(** The user of the data's email address, if there is one. *)
Definition user_by_email (w : World) (request : Request)
  : gmap string JVal + User.t :=
  match data request !! "email" with
  | Some e =>
      match filter (λ u, User.email u = e) (map_to_list (users w)).*2 with
      | u :: _ => inr u
      | [] => inl {[ "email" := JList ["No account with this email address exists."] ]}
      end
  | None => inl {[ "email" := JList ["This field is required."] ]}
  end.

Definition password_fields (request : Request) : option (gmap string JVal) :=
  match data request !! "token", data request !! "new_password" with
  | Some _, Some _ => None
  | _, _ => Some {[ "non_field_errors" := JList ["token and new_password are required."] ]}
  end.

Definition serializers : Serializers := {|
  serializer_data := λ _ _ u, user_fields u;
  serializer_update := λ _ _ request _ u, update_fields request u;
  ResetPasswordSerializer := user_by_email;
  ChangePasswordSerializer := λ _ request, password_fields request
|}.

(** Staff may touch every object, the others only their own. *)
Definition is_owner (request : Request) (obj : Obj) : bool :=
  match user request with
  | AnonymousUser => false
  | Authenticated u =>
      User.is_staff u
      || match obj with
         | UserObj o => bool_decide (User.id o = User.id u)
         | TemporaryTokenObj t => bool_decide (TemporaryToken.user t = User.id u)
         end
  end.

Definition permissions : Permissions := {|
  IsOwner_has_object_permission := λ request _ obj, is_owner request obj
|}.

Definition framework : Framework := {|
  filter_backends := λ _ _, true;
  to_python := parse_pk;
  make_password := λ raw, "hashed:" +:+ py_str raw
|}.

Definition settings_without_email : Settings := {|
  EMAIL_SERVICE := PyBool false;
  DEFAULT_PERMISSION_CLASSES := [IsAuthenticated]
|}.

Definition settings_with_email : Settings := {|
  EMAIL_SERVICE := PyBool true;
  DEFAULT_PERMISSION_CLASSES := [IsAuthenticated]
|}.

Definition models : Models := {|
  send_reset_password := λ u,
    modify (λ w, mkWorld (users w) (action_tokens w) (temporary_tokens w)
                   (mkEmail (User.email u) "reset_password" :: outbox w));
  invalid_token_detail := λ k,
    {[ "token" := JStr (py_str k +:+ " is not a valid token.") ]}
|}.

Definition alice : User.t :=
  User.mk 1 "alice@example.org" "hashed:a" "Alice" "Martin" false false false.

Definition bob : User.t :=
  User.mk 2 "bob@example.org" "hashed:b" "Bob" "Roy" true false false.

Definition store : World := {|
  users := {[ 1 := alice; 2 := bob ]};
  action_tokens :=
    [ ActionToken.mk 10 "act-1" "account_activation" 1 false;
      ActionToken.mk 11 "pwd-2" "password_change" 2 false;
      ActionToken.mk 12 "dup" "account_activation" 1 false;
      ActionToken.mk 13 "dup" "account_activation" 2 false ];
  temporary_tokens :=
    {[ "tmp-a" := TemporaryToken.mk "tmp-a" 1;
       "tmp-b" := TemporaryToken.mk "tmp-b" 2 ]};
  outbox := []
|}.

Definition anonymous (d : gmap string string) : Request :=
  mkRequest AnonymousUser d ∅.

Definition as_bob : Request := mkRequest (Authenticated bob) ∅ ∅.

Definition detail (a pk : string) : View := mkView a {[ "pk" := KwStr pk ]}.
End Fixtures.


(** ** More of the small project: a staff user and the login *)

Module Scenarios.
Import Fixtures.

Definition carol : User.t :=
  User.mk 3 "carol@example.org" "hashed:c" "Carol" "Dumas" true true false.

Definition as_alice : Request := mkRequest (Authenticated alice) ∅ ∅.

Definition as_carol : Request := mkRequest (Authenticated carol) ∅ ∅.

Definition as_bob_with (d : gmap string string) : Request :=
  mkRequest (Authenticated bob) d ∅.

Definition view_permissions : ViewPermissions := {|
  IsOwner_has_permission := λ _ _, true
|}.

(** The user of the data's email address when the password hashes to the
    stored one. *)
Definition check_credentials (w : World) (request : Request)
  : gmap string JVal + User.t :=
  match user_by_email w request with
  | inr u =>
      if bool_decide (@make_password framework (data request !! "password")
                      = User.password u)
      then inr u
      else inl {[ "non_field_errors" :=
                    JList ["Unable to log in with provided credentials."] ]}
  | inl errors => inl errors
  end.

(** A token keyed by the address of its user, stored under its key. *)
Definition issue_token (u : User.t) : M TemporaryToken.t :=
  let t := TemporaryToken.mk ("tmp-" +:+ User.email u) (User.id u) in
  modify (λ w, with_temporary_tokens
                 (<[TemporaryToken.key t := t]> (temporary_tokens w)) w) ;;;
  ret t.

Definition login : Login := {|
  CustomAuthTokenSerializer := check_credentials;
  get_temporary_token := issue_token
|}.
End Scenarios.
(** ** Reasoning about handler computations *)

Lemma bind_Return {A B} (m : M A) (k : A → M B) w w' a :
  m w = (w', Return a) → bind m k w = k a w'.
Proof. intros Hm. unfold bind. by rewrite Hm. Qed.

Lemma bind_Raise {A B} (m : M A) (k : A → M B) w w' e :
  m w = (w', Raise e) → bind m k w = (w', Raise e).
Proof. intros Hm. unfold bind. by rewrite Hm. Qed.

Lemma length_one_inv {A} (l : list A) :
  (length l =? 1)%nat = true → ∃ x, l = [x].
Proof.
  destruct l as [|x [|y l]]; simpl; try discriminate.
  intros _. by exists x.
Qed.

(** Saving a user keeps every row under its own primary key. *)
Lemma User_save_keyed u w :
  users_keyed w → users_keyed (fst (User_save u w)).
Proof.
  unfold users_keyed, User_save, modify. simpl. intros Hk.
  by apply map_Forall_insert_2.
Qed.

(** ** UsersActivation: the properties *)

Section UsersActivationFacts.
Context `{Serializers}.

Lemma post_single request w token0 :
  ActionToken_objects_filter (data request !! "activation_token")
    "account_activation" w = (w, Return [token0]) →
  UsersActivation.post request w =
    (user <- ActionToken_user token0 ;;
     let user := User.set_is_active true user in
     User_save user ;;;
     ActionToken_delete token0 ;;;
     ret (mkResponse status.HTTP_200_OK
            (Some (serializer_data UserSerializer request user)))) w.
Proof.
  intros Hq. unfold UsersActivation.post.
  by rewrite (bind_Return _ _ _ _ _ Hq).
Qed.

(** C1. When the token of an activation request matches exactly one
    action token of type account_activation, the handler sets the
    is_active flag of the token's owner, deletes the matched token (and
    no token with another primary key), and returns the serialized user
    with status 200. *)
Theorem activation_single_match request w token0 u :
  ActionToken_objects_filter (data request !! "activation_token")
    "account_activation" w = (w, Return [token0]) →
  users w !! ActionToken.user token0 = Some u →
  users_keyed w →
  ∃ w',
    UsersActivation.post request w =
      (w', Return (mkResponse status.HTTP_200_OK
                     (Some (serializer_data UserSerializer request
                              (User.set_is_active true u)))))
    ∧ users w' !! ActionToken.user token0 = Some (User.set_is_active true u)
    ∧ User.is_active (User.set_is_active true u) = true
    ∧ (∀ k, k ≠ ActionToken.user token0 → users w' !! k = users w !! k)
    ∧ (token0 ∉ action_tokens w')
    ∧ (∀ a, a ∈ action_tokens w' ↔
            a ∈ action_tokens w ∧ ActionToken.pk a ≠ ActionToken.pk token0).
Proof.
  intros Hq Hu Hk.
  assert (Hid : User.id u = ActionToken.user token0) by exact (Hk _ _ Hu).
  eexists. split.
  { rewrite (post_single _ _ _ Hq).
    unfold ActionToken_user, User_objects_get, bind. rewrite Hu.
    simpl. reflexivity. }
  simpl. rewrite Hid. split_and!.
  - apply lookup_insert_eq.
  - done.
  - intros k Hne. by apply lookup_insert_ne.
  - rewrite list_elem_of_filter. intros [Hne _]. by apply Hne.
  - intros a. rewrite list_elem_of_filter. tauto.
Qed.


(** C10. An activation request answered with status 400 leaves the store
    as it was: no user row is modified and no action token is deleted. *)
Theorem activation_failure_frame request w w' r :
  respond (UsersActivation.post request) w = (w', r) →
  status_code r = status.HTTP_400_BAD_REQUEST →
  w' = w.
Proof.
  unfold respond, UsersActivation.post, bind, ActionToken_objects_filter, gets.
  set (token := filter _ (action_tokens w)).
  destruct (length token =? 1)%nat eqn:Hlen.
  - apply length_one_inv in Hlen as [t0 ->]. simpl.
    unfold ActionToken_user, User_objects_get.
    destruct (users w !! ActionToken.user t0); simpl.
    + intros [= <- <-]. discriminate.
    + intros [= <- <-]. discriminate.
  - simpl. by intros [= <- <-] _.
Qed.

(** The handler keeps the user table keyed, whatever the request. *)
Lemma activation_keyed request w :
  users_keyed w → users_keyed (fst (UsersActivation.post request w)).
Proof.
  intros Hk.
  unfold UsersActivation.post, bind, ActionToken_objects_filter, gets.
  set (token := filter _ (action_tokens w)).
  destruct (length token =? 1)%nat eqn:Hlen; [|done].
  apply length_one_inv in Hlen as [t0 ->]. simpl.
  unfold ActionToken_user, User_objects_get.
  destruct (users w !! ActionToken.user t0) as [u|]; [|done]. simpl.
  by apply (User_save_keyed (User.set_is_active true u)).
Qed.
End UsersActivationFacts.

(** ** UserViewSet: the properties *)

Section UserViewSetFacts.
Context `{Serializers, Permissions, Framework}.

Import UserViewSet.

(** Fetching an object never writes to the store. *)
Lemma get_object_or_404_frame queryset v w :
  fst (get_object_or_404 queryset v w) = w.
Proof.
  unfold get_object_or_404.
  destruct (pk_value v) as [k|]; [|done].
  destruct (users w !! k) as [u|]; [|by destruct (in_int64 k)].
  by destruct (queryset u).
Qed.

Lemma check_object_permissions_frame perms self request obj w :
  fst (check_object_permissions perms self request obj w) = w.
Proof.
  unfold check_object_permissions, permission_denied.
  destruct (forallb _ perms); [done|].
  by destruct (user request).
Qed.

Lemma get_object_frame self request w :
  fst (get_object self request w) = w.
Proof.
  unfold get_object.
  destruct (get_queryset self request) as [self' queryset].
  destruct (kwargs self' !! "pk") as [v|]; [|done].
  unfold bind.
  pose proof (get_object_or_404_frame (filter_queryset request queryset) v w) as Hf.
  destruct (get_object_or_404 _ v w) as [w1 [obj|e]]; simpl in Hf; subst w1; [|done].
  pose proof (check_object_permissions_frame
                (get_permissions self') self' request (UserObj obj) w) as Hc.
  by destruct (check_object_permissions _ self' request (UserObj obj) w)
    as [w2 [[]|e]]; simpl in Hc; subst w2.
Qed.

(** An object that was fetched is a row of the user table. *)
Lemma get_object_Return self request w w' obj :
  get_object self request w = (w', Return obj) →
  w' = w ∧ ∃ k, users w !! k = Some obj.
Proof.
  intros Hg. split.
  { pose proof (get_object_frame self request w) as Hf.
    by rewrite Hg in Hf. }
  revert Hg. unfold get_object.
  destruct (get_queryset self request) as [self' queryset].
  destruct (kwargs self' !! "pk") as [v|]; [|done].
  unfold bind, get_object_or_404.
  destruct (pk_value v) as [k|]; [|done].
  destruct (users w !! k) as [u|] eqn:Hu; [|by destruct (in_int64 k)].
  destruct (filter_queryset request queryset u); [|done].
  destruct (check_object_permissions _ self' request (UserObj u) w)
    as [w2 [[]|e]]; [|done].
  intros [= _ <-]. by exists k.
Qed.

(** When a delete, retrieve or update request is resolved: the key stands
    for the primary key of a stored user, the filter backends keep the row
    and the permission classes of the action admit the request. *)
Lemma get_object_resolves self request w v k u :
  kwargs (fst (get_queryset self request)) !! "pk" = Some v →
  pk_value v = Some k →
  users w !! k = Some u →
  filter_backends request u = true →
  forallb (λ p, has_object_permission p request
                  (fst (get_queryset self request)) (UserObj u))
          (get_permissions (fst (get_queryset self request))) = true →
  get_object self request w = (w, Return u).
Proof.
  intros Hv Hpk Hu Hf Hperm. unfold get_object.
  destruct (get_queryset self request) as [self' queryset] eqn:Hq.
  simpl in *. rewrite Hv. unfold bind, get_object_or_404. rewrite Hpk, Hu.
  assert (Hall : queryset = λ _, true).
  { unfold get_queryset in Hq. by case_bool_decide; injection Hq as _ <-. }
  subst queryset. unfold filter_queryset. rewrite Hf. simpl.
  unfold check_object_permissions. by rewrite Hperm.
Qed.

(** C4. When the delete request resolves to an existing user, the handler
    writes that user back with is_active set to false and every other
    field as it was; the row stays in the table, no other row and no
    other table changes, and the answer is status 204. *)
Theorem destroy_deactivates self request w obj :
  get_object self request w = (w, Return obj) →
  users_keyed w →
  let obj' := User.set_is_active false obj in
  let w' := with_users (<[User.id obj := obj']> (users w)) w in
  destroy self request w = (w', Return (mkResponse status.HTTP_204_NO_CONTENT None))
  ∧ users w !! User.id obj = Some obj
  ∧ users w' !! User.id obj = Some obj'
  ∧ User.is_active obj' = false
  ∧ (User.id obj' = User.id obj
     ∧ User.email obj' = User.email obj
     ∧ User.password obj' = User.password obj
     ∧ User.first_name obj' = User.first_name obj
     ∧ User.last_name obj' = User.last_name obj
     ∧ User.is_staff obj' = User.is_staff obj
     ∧ User.is_superuser obj' = User.is_superuser obj)
  ∧ dom (users w') = dom (users w)
  ∧ (∀ k, k ≠ User.id obj → users w' !! k = users w !! k)
  ∧ action_tokens w' = action_tokens w
  ∧ temporary_tokens w' = temporary_tokens w
  ∧ outbox w' = outbox w.
Proof.
  intros Hg Hk obj' w'.
  destruct (get_object_Return _ _ _ _ _ Hg) as [_ [k Hu]].
  assert (Hid : User.id obj = k) by exact (Hk _ _ Hu). subst k.
  split_and!; try done.
  - unfold destroy, bind, try_except_Http404. by rewrite Hg.
  - apply lookup_insert_eq.
  - simpl. by apply dom_insert_lookup_L.
  - intros k Hne. simpl. by rewrite lookup_insert_ne.
Qed.

(** The delete handler keeps the user table keyed. *)
Lemma destroy_keyed self request w :
  users_keyed w → users_keyed (fst (destroy self request w)).
Proof.
  intros Hk. pose proof (get_object_frame self request w) as Hf.
  unfold destroy, bind, try_except_Http404.
  destruct (get_object self request w) as [w1 [obj|e]]; simpl in Hf; subst w1.
  - by apply (User_save_keyed (User.set_is_active false obj)).
  - by destruct e.
Qed.

(** A delete request the permission check refuses changes nothing and is
    not answered with 204: the exception leaves the handler. *)
Lemma destroy_refused self request w e :
  get_object self request w = (w, Raise e) →
  e ≠ Http404 →
  destroy self request w = (w, Raise e).
Proof.
  intros Hg He. unfold destroy, bind, try_except_Http404. rewrite Hg.
  by destruct e.
Qed.

(** A request whose key does not coerce, or is a key within the range of
    the database that no row has, is not found. *)
Lemma get_object_missing self request w v :
  kwargs (fst (get_queryset self request)) !! "pk" = Some v →
  (∀ k, pk_value v = Some k → in_int64 k = true ∧ users w !! k = None) →
  get_object self request w = (w, Raise Http404).
Proof.
  intros Hv Hnone. unfold get_object.
  destruct (get_queryset self request) as [self' queryset]. simpl in Hv.
  rewrite Hv. unfold bind, get_object_or_404.
  destruct (pk_value v) as [k|] eqn:Hpk; [|done].
  destruct (Hnone k eq_refl) as [Hin Hu]. by rewrite Hu, Hin.
Qed.

(** A request for a key outside the range of the database that no row has
    fails with an overflow error. *)
Lemma get_object_overflow self request w v k :
  kwargs (fst (get_queryset self request)) !! "pk" = Some v →
  pk_value v = Some k →
  in_int64 k = false →
  users w !! k = None →
  get_object self request w = (w, Raise OverflowError).
Proof.
  intros Hv Hpk Hout Hu. unfold get_object.
  destruct (get_queryset self request) as [self' queryset]. simpl in Hv.
  rewrite Hv. unfold bind, get_object_or_404. by rewrite Hpk, Hu, Hout.
Qed.

(** A delete request whose lookup raises not-found is swallowed. *)
Lemma destroy_swallows_not_found self request w :
  snd (get_object self request w) = Raise Http404 →
  destroy self request w =
    (w, Return (mkResponse status.HTTP_204_NO_CONTENT None)).
Proof.
  intros Hg. pose proof (get_object_frame self request w) as Hf.
  unfold destroy, bind, try_except_Http404.
  destruct (get_object self request w) as [w1 o]. simpl in *. by subst.
Qed.

(** C8, as the handler has it. When the lookup of a delete request raises
    not-found, the handler answers 204 and leaves the store as it was; the
    same request again gives the same answer and the same store. The
    lookup raises not-found when the key does not coerce to an integer, or
    is an integer within the signed 64-bit range under which no user is
    stored. *)
Theorem destroy_not_found self request w :
  (snd (get_object self request w) = Raise Http404 →
     destroy self request w =
       (w, Return (mkResponse status.HTTP_204_NO_CONTENT None))
     ∧ destroy self request (fst (destroy self request w)) =
         destroy self request w)
  ∧ (∀ v, kwargs (fst (get_queryset self request)) !! "pk" = Some v →
          (∀ k, pk_value v = Some k →
                in_int64 k = true ∧ users w !! k = None) →
          snd (get_object self request w) = Raise Http404).
Proof.
  split.
  - intros Hg. pose proof (destroy_swallows_not_found _ _ _ Hg) as Hd.
    split; [done|]. by rewrite Hd.
  - intros v Hv Hnone. by rewrite (get_object_missing _ _ _ _ Hv Hnone).
Qed.

Lemma super_retrieve_not_found self request w :
  snd (get_object self request w) = Raise Http404 →
  super_retrieve self request w = (w, Raise Http404).
Proof.
  intros Hg. pose proof (get_object_frame self request w) as Hf.
  unfold super_retrieve, bind.
  destruct (get_object self request w) as [w1 o]. simpl in *. by subst.
Qed.

Lemma super_update_not_found self request partial w :
  snd (get_object self request w) = Raise Http404 →
  super_update self request partial w = (w, Raise Http404).
Proof.
  intros Hg. pose proof (get_object_frame self request w) as Hf.
  unfold super_update, bind.
  destruct (get_object self request w) as [w1 o]. simpl in *. by subst.
Qed.

(** C5, as the handlers have it. For a user who is not staff, a request
    whose lookup raises not-found is answered 403 by retrieve, update and
    partial_update, and 204 by destroy; none of them answers 404, and the
    store is left as it was. *)
Theorem not_found_for_non_staff h self request w :
  user_is_staff (user request) = false →
  snd (get_object self request w) = Raise Http404 →
  respond (handle h self request) w =
    (w, match h with
        | Destroy => mkResponse status.HTTP_204_NO_CONTENT None
        | Retrieve | Update | PartialUpdate =>
            mkResponse status.HTTP_403_FORBIDDEN None
        end)
  ∧ status_code (snd (respond (handle h self request) w))
    ≠ status.HTTP_404_NOT_FOUND.
Proof.
  intros Hstaff Hg.
  assert (Hr : respond (handle h self request) w =
    (w, match h with
        | Destroy => mkResponse status.HTTP_204_NO_CONTENT None
        | Retrieve | Update | PartialUpdate =>
            mkResponse status.HTTP_403_FORBIDDEN None
        end)).
  { unfold respond. destruct h; simpl.
    - unfold retrieve. rewrite Hstaff. unfold try_except_Http404.
      by rewrite (super_retrieve_not_found _ _ _ Hg).
    - unfold update. rewrite Hstaff. unfold try_except_Http404.
      by rewrite (super_update_not_found _ _ _ _ Hg).
    - unfold partial_update, update. rewrite Hstaff.
      unfold try_except_Http404.
      by rewrite (super_update_not_found _ _ _ _ Hg).
    - by rewrite (destroy_swallows_not_found _ _ _ Hg). }
  split; [done|]. rewrite Hr. by destruct h.
Qed.

(** With the key "me", [get_queryset] overwrites the key with the id of
    the requesting user; any other key is left alone. *)
Lemma get_queryset_me self request :
  kwargs self !! "pk" = Some (KwStr "me") →
  get_queryset self request =
    (mkView (action self)
            (<["pk" := kw_of_id (user_id (user request))]> (kwargs self)),
     λ _, true).
Proof.
  intros Hpk. unfold get_queryset. by rewrite Hpk.
Qed.

Lemma get_queryset_int self request z :
  kwargs self !! "pk" = Some (KwInt z) →
  get_queryset self request = (self, λ _, true).
Proof.
  intros Hpk. unfold get_queryset. by rewrite Hpk.
Qed.

(** C9. For an authenticated request whose URL key is the string "me",
    the key is replaced by the id of the requesting user before the
    lookup: retrieve, update and delete behave as for a request that
    names that id, and the object they work on is the row stored under the
    requesting user's id. When that row is stored, kept by the filter
    backends and admitted by the permission classes, the lookup returns
    it: retrieve answers 200 with that row serialized, delete writes that
    row back inactive and answers 204, and update saves what the
    serializer made of that row. *)
Theorem me_is_the_requesting_user self request u :
  user request = Authenticated u →
  kwargs self !! "pk" = Some (KwStr "me") →
  let own := mkView (action self) (<["pk" := KwInt (User.id u)]> (kwargs self)) in
  fst (get_queryset self request) = own
  ∧ (∀ w, get_object self request w = get_object own request w)
  ∧ (∀ w obj, get_object self request w = (w, Return obj) →
              users w !! User.id u = Some obj)
  ∧ (∀ w, retrieve self request w = retrieve own request w)
  ∧ (∀ partial w, update self request partial w = update own request partial w)
  ∧ (∀ w, destroy self request w = destroy own request w)
  ∧ (∀ w row,
       users w !! User.id u = Some row →
       filter_backends request row = true →
       forallb (λ p, has_object_permission p request own (UserObj row))
               (get_permissions own) = true →
       get_object self request w = (w, Return row)
       ∧ retrieve self request w =
           (w, Return (mkResponse status.HTTP_200_OK
                         (Some (serializer_data (get_serializer_class self)
                                  request row))))
       ∧ destroy self request w =
           (with_users (<[User.id row := User.set_is_active false row]> (users w)) w,
            Return (mkResponse status.HTTP_204_NO_CONTENT None))
       ∧ (∀ partial,
            update self request partial w =
              match serializer_update (get_serializer_class self) w request
                      partial row with
              | inl errors => (w, Raise (ValidationError errors))
              | inr row' =>
                  (with_users (<[User.id row' := row']> (users w)) w,
                   Return (mkResponse status.HTTP_200_OK
                             (Some (serializer_data (get_serializer_class self)
                                      request row'))))
              end)).
Proof.
  intros Hu Hpk own.
  assert (Hq : get_queryset self request = (own, λ _, true)).
  { rewrite (get_queryset_me _ _ Hpk). by rewrite Hu. }
  assert (Hq' : get_queryset own request = (own, λ _, true)).
  { apply (get_queryset_int _ _ (User.id u)). apply lookup_insert_eq. }
  assert (Hg : ∀ w, get_object self request w = get_object own request w).
  { intros w. unfold get_object. by rewrite Hq, Hq'. }
  assert (Hc : get_serializer_class own = get_serializer_class self) by done.
  assert (Hown : kwargs own !! "pk" = Some (KwInt (User.id u)))
    by apply lookup_insert_eq.
  split_and!.
  - by rewrite Hq.
  - done.
  - intros w obj. unfold get_object. rewrite Hq, Hown.
    unfold bind, get_object_or_404. simpl.
    destruct (users w !! User.id u) as [o|];
      [|by destruct (in_int64 (User.id u))].
    destruct (filter_queryset request (λ _, true) o); [|done].
    destruct (check_object_permissions _ own request (UserObj o) w)
      as [w2 [[]|e]]; [|done].
    by intros [= _ <-].
  - intros w. unfold retrieve, super_retrieve, bind, try_except_Http404.
    destruct (user_is_staff (user request)); cbv beta; by rewrite Hg, Hc.
  - intros partial w. unfold update, super_update, bind, try_except_Http404.
    destruct (user_is_staff (user request)); cbv beta; by rewrite Hg, Hc.
  - intros w. unfold destroy, bind, try_except_Http404. by rewrite Hg.
  - intros w row Hrow Hkeep Hperm.
    assert (Hres : get_object self request w = (w, Return row)).
    { apply (get_object_resolves _ _ _ (KwInt (User.id u)) (User.id u));
        rewrite ?Hq; done. }
    split_and!.
    + done.
    + unfold retrieve, super_retrieve, bind, try_except_Http404.
      destruct (user_is_staff (user request)); cbv beta; by rewrite Hres.
    + unfold destroy, bind, try_except_Http404. by rewrite Hres.
    + intros partial.
      unfold update, super_update, bind, try_except_Http404, gets.
      destruct (user_is_staff (user request)); cbv beta; rewrite Hres;
        by destruct (serializer_update _ w request partial row).
Qed.
End UserViewSetFacts.

(** ** ResetPassword: the properties *)

Section ResetPasswordFacts.
Context `{Serializers, Settings, Models}.

(** C6. When the EMAIL_SERVICE setting is not the value true, the handler
    answers 501 and the store is as before: no email has been sent and no
    token created. When it is true and the data does not validate, the
    handler answers 400 with the errors of the serializer. *)
Theorem reset_password_refusals request w :
  (is_True EMAIL_SERVICE = false →
     ResetPassword.post request w =
       (w, Return (mkResponse status.HTTP_501_NOT_IMPLEMENTED None))
     ∧ outbox (fst (ResetPassword.post request w)) = outbox w
     ∧ action_tokens (fst (ResetPassword.post request w)) = action_tokens w)
  ∧ (is_True EMAIL_SERVICE = true →
     ∀ errors, ResetPasswordSerializer w request = inl errors →
       ResetPassword.post request w =
         (w, Return (mkResponse status.HTTP_400_BAD_REQUEST (Some errors)))).
Proof.
  split.
  - intros Hoff.
    assert (Hp : ResetPassword.post request w =
                 (w, Return (mkResponse status.HTTP_501_NOT_IMPLEMENTED None))).
    { unfold ResetPassword.post. by rewrite Hoff. }
    by rewrite Hp.
  - intros Hon errors Herr. unfold ResetPassword.post. rewrite Hon. simpl.
    unfold bind, gets. by rewrite Herr.
Qed.
End ResetPasswordFacts.

(** ** ChangePassword: the properties *)

Lemma filter_none {A} (P : A → Prop) `{∀ x, Decision (P x)} (l : list A) :
  (∀ x, x ∈ l → ¬ P x) → filter P l = [].
Proof.
  intros Hnone. destruct (filter P l) as [|x r] eqn:Hf; [done|].
  assert (Hx : x ∈ filter P l) by (rewrite Hf; left).
  apply list_elem_of_filter in Hx as [HP Hin]. by destruct (Hnone x Hin).
Qed.

Lemma existsb_pk (a : ActionToken.t) (l : list ActionToken.t) :
  a ∈ l →
  existsb (λ b, bool_decide (ActionToken.pk b = ActionToken.pk a)) l = true.
Proof.
  intros Hin. apply existsb_exists. exists a. split.
  - by apply list_elem_of_In.
  - by apply bool_decide_eq_true_2.
Qed.

(** Expiring a token rewrites the rows with its primary key and nothing
    else. *)
Lemma expire_users a w : users (fst (ActionToken_expire a w)) = users w.
Proof.
  unfold ActionToken_expire, ActionToken_save, modify. simpl.
  by destruct (existsb _ (action_tokens w)).
Qed.

Lemma expire_action_tokens a w :
  a ∈ action_tokens w →
  action_tokens (fst (ActionToken_expire a w)) =
    (λ b, if bool_decide (ActionToken.pk b = ActionToken.pk a)
          then ActionToken.set_expired true a else b) <$> action_tokens w.
Proof.
  intros Hin. unfold ActionToken_expire, ActionToken_save, modify. simpl.
  by rewrite (existsb_pk _ _ Hin).
Qed.

(** Once a token is expired, its key names no valid password-change token,
    provided the token was the only valid one with that key. *)
Lemma expire_consumes k (a : ActionToken.t) w :
  password_change_tokens k (action_tokens w) = [a] →
  password_change_tokens k (action_tokens (fst (ActionToken_expire a w))) = [].
Proof.
  intros Hone.
  assert (Ha : a ∈ password_change_tokens k (action_tokens w))
    by (rewrite Hone; left).
  apply list_elem_of_filter in Ha as [_ Hin].
  rewrite (expire_action_tokens _ _ Hin).
  apply filter_none. intros x Hx.
  apply list_elem_of_fmap in Hx as [b [-> Hb]].
  case_bool_decide as Hpk.
  - simpl. intros (_ & _ & Hexp). discriminate.
  - intros Hvalid.
    assert (Hb' : b ∈ password_change_tokens k (action_tokens w))
      by (apply list_elem_of_filter; by split).
    rewrite Hone in Hb'. apply list_elem_of_singleton in Hb'. by subst.
Qed.

Section ChangePasswordFacts.
Context `{Serializers, Framework, Models}.

(** C3. When the data of a change-password request validates and its
    token names the one valid password-change token, the handler stores
    the new password on the user who owns the token, expires the token,
    and returns the serialized user; a later request with the same token
    is refused. *)
Theorem change_password_consumes_token request w token u :
  ChangePasswordSerializer w request = None →
  password_change_tokens (data request !! "token") (action_tokens w) = [token] →
  users w !! ActionToken.user token = Some u →
  users_keyed w →
  let u' := set_password (data request !! "new_password") u in
  ∃ w',
    ChangePassword.post request w =
      (w', Return (mkResponse status.HTTP_200_OK
                     (Some (serializer_data UserSerializer request u'))))
    ∧ users w' !! ActionToken.user token = Some u'
    ∧ User.password u' = make_password (data request !! "new_password")
    ∧ (∀ k, k ≠ ActionToken.user token → users w' !! k = users w !! k)
    ∧ ActionToken.set_expired true token ∈ action_tokens w'
    ∧ password_change_tokens (data request !! "token") (action_tokens w') = []
    ∧ (∀ request2,
         data request2 !! "token" = data request !! "token" →
         ∃ detail,
           ChangePassword.post request2 w' = (w', Raise (ValidationError detail))).
Proof.
  intros Hvalid Hone Hu Hk u'.
  assert (Hid : User.id u = ActionToken.user token) by exact (Hk _ _ Hu).
  set (w1 := with_users (<[User.id u' := u']> (users w)) w).
  exists (fst (ActionToken_expire token w1)).
  assert (Hone1 : password_change_tokens (data request !! "token")
                    (action_tokens w1) = [token]) by done.
  assert (Hin : token ∈ action_tokens w1).
  { assert (Ha : token ∈ password_change_tokens (data request !! "token")
                           (action_tokens w1)) by (rewrite Hone1; left).
    by apply list_elem_of_filter in Ha as [_ ?]. }
  split_and!.
  - unfold ChangePassword.post, bind, gets. rewrite Hvalid.
    unfold ActionToken_get_password_change_token. rewrite Hone.
    unfold ActionToken_user, User_objects_get. rewrite Hu. reflexivity.
  - rewrite expire_users. simpl. rewrite Hid. apply lookup_insert_eq.
  - done.
  - intros k Hne. rewrite expire_users. simpl. rewrite Hid.
    by apply lookup_insert_ne.
  - rewrite (expire_action_tokens _ _ Hin).
    apply list_elem_of_fmap. exists token. split; [|done].
    by rewrite bool_decide_eq_true_2.
  - by apply expire_consumes.
  - intros request2 Hsame.
    pose proof (expire_consumes _ _ _ Hone1) as Hnone.
    unfold ChangePassword.post, bind, gets.
    destruct (ChangePasswordSerializer _ request2) as [errors|].
    + by exists errors.
    + unfold ActionToken_get_password_change_token.
      rewrite Hsame, Hnone. by eexists.
Qed.
End ChangePasswordFacts.

(** ** TemporaryTokenDestroy: the properties *)

Section TemporaryTokenDestroyFacts.
Context `{Permissions, Settings}.

Import TemporaryTokenDestroy.

(** What a logout request can do to the store: nothing, or delete the
    row stored under the supplied key, which then has that key and is
    bound to the requesting user. *)
Lemma destroy_effect self request w :
  fst (destroy self request w) = w
  ∨ ∃ s t u,
      user request = Authenticated u
      ∧ kwargs self !! "pk" = Some (KwStr s)
      ∧ temporary_tokens w !! s = Some t
      ∧ TemporaryToken.key t = s
      ∧ TemporaryToken.user t = User.id u
      ∧ destroy self request w =
          (with_temporary_tokens (delete s (temporary_tokens w)) w,
           Return (mkResponse status.HTTP_204_NO_CONTENT None)).
Proof.
  unfold destroy, get_object, get_queryset, bind.
  destruct (user request) as [|u] eqn:Hu; [by left|]. simpl.
  destruct (kwargs self !! "pk") as [v|] eqn:Hpk; [|by left].
  unfold get_object_or_404.
  destruct v as [s|z|]; try (by left).
  destruct (temporary_tokens w !! s) as [t|] eqn:Ht; [|by left].
  destruct (bool_decide (Some (KwStr s) = Some (KwStr (TemporaryToken.key t))))
    eqn:Hkey; [|by left].
  destruct (bool_decide (TemporaryToken.user t = User.id u)) eqn:Huser;
    [|by left].
  simpl.
  apply bool_decide_eq_true_1 in Hkey. apply bool_decide_eq_true_1 in Huser.
  assert (Hs : TemporaryToken.key t = s) by congruence.
  unfold check_object_permissions, permission_denied. rewrite Hu.
  destruct (forallb _ DEFAULT_PERMISSION_CLASSES); [|by left].
  right. exists s, t, u. unfold TemporaryToken_delete, modify, ret.
  rewrite Hs. by split_and!.
Qed.

(** C7. A logout request removes a temporary token only when the key of
    the token is the supplied key and the token is bound to the
    requesting user; every token bound to another user, the one with the
    supplied key included, is left as it was, and so are the other
    tables. *)
Theorem logout_deletes_only_own_token self request w :
  let w' := fst (destroy self request w) in
  (∀ k t, temporary_tokens w !! k = Some t →
          temporary_tokens w' !! k ≠ Some t →
          kwargs self !! "pk" = Some (KwStr (TemporaryToken.key t))
          ∧ k = TemporaryToken.key t
          ∧ user_id (user request) = Some (TemporaryToken.user t))
  ∧ (∀ k t, temporary_tokens w !! k = Some t →
            user_id (user request) ≠ Some (TemporaryToken.user t) →
            temporary_tokens w' !! k = Some t)
  ∧ (∀ k, temporary_tokens w !! k = None → temporary_tokens w' !! k = None)
  ∧ users w' = users w
  ∧ action_tokens w' = action_tokens w
  ∧ outbox w' = outbox w.
Proof.
  intros w'. subst w'.
  destruct (destroy_effect self request w)
    as [->|(s & t0 & u & Hu & Hpk & Ht0 & Hkey & Huser & ->)].
  { split_and!; try done; intros k t Ht Hne; by destruct Hne. }
  simpl. split_and!; try done.
  - intros k t Ht Hne.
    destruct (decide (k = s)) as [->|Hks].
    + rewrite Ht0 in Ht. injection Ht as <-.
      rewrite Hu. simpl. by rewrite Hkey, Huser.
    + rewrite lookup_delete_ne in Hne by done. by destruct Hne.
  - intros k t Ht Hother.
    destruct (decide (k = s)) as [->|Hks].
    + rewrite Ht0 in Ht. injection Ht as <-.
      rewrite Hu in Hother. simpl in Hother. by rewrite Huser in Hother.
    + by rewrite lookup_delete_ne.
  - intros k Hnone.
    destruct (decide (k = s)) as [->|Hks].
    + apply lookup_delete_eq.
    + by rewrite lookup_delete_ne.
Qed.

(** The token of the requesting user is deleted when the permission
    classes of the project admit the request. *)
Lemma logout_deletes_own_token self request w s t u :
  user request = Authenticated u →
  kwargs self !! "pk" = Some (KwStr s) →
  temporary_tokens w !! s = Some t →
  TemporaryToken.key t = s →
  TemporaryToken.user t = User.id u →
  forallb (λ p, has_object_permission p request self (TemporaryTokenObj t))
          DEFAULT_PERMISSION_CLASSES = true →
  destroy self request w =
    (with_temporary_tokens (delete s (temporary_tokens w)) w,
     Return (mkResponse status.HTTP_204_NO_CONTENT None)).
Proof.
  intros Hu Hpk Ht Hkey Huser Hperm.
  unfold destroy, get_object, get_queryset, bind. rewrite Hu. simpl.
  rewrite Hpk. unfold get_object_or_404. rewrite Ht.
  rewrite Hkey, Huser.
  rewrite !bool_decide_eq_true_2 by done. simpl.
  unfold check_object_permissions. rewrite Hperm. simpl.
  unfold TemporaryToken_delete, modify, ret. by rewrite Hkey.
Qed.
End TemporaryTokenDestroyFacts.

(** ** The handlers run on the small project *)

Section Runs.
Import Fixtures.

Local Abbreviation S := serializers.
Local Abbreviation P := permissions.
Local Abbreviation F := framework.
Local Abbreviation Mo := models.

Ltac run := vm_compute; reflexivity.
Ltac keyed := apply (bool_decide_unpack _); vm_compute; exact I.

(** Activating with the key of the one activation token of alice. *)
Lemma activation_single_match_run :
  let request := anonymous {[ "activation_token" := "act-1" ]} in
  let token0 := ActionToken.mk 10 "act-1" "account_activation" 1 false in
  ActionToken_objects_filter (data request !! "activation_token")
    "account_activation" store = (store, Return [token0])
  ∧ users store !! ActionToken.user token0 = Some alice
  ∧ users_keyed store
  ∧ ∃ w',
      @UsersActivation.post S request store =
        (w', Return (mkResponse status.HTTP_200_OK
                       (Some (user_fields (User.set_is_active true alice)))))
      ∧ users w' !! 1 = Some (User.set_is_active true alice)
      ∧ (token0 ∉ action_tokens w').
Proof.
  intros request token0.
  assert (Hq : ActionToken_objects_filter (data request !! "activation_token")
                 "account_activation" store = (store, Return [token0])) by run.
  assert (Hu : users store !! ActionToken.user token0 = Some alice) by run.
  assert (Hk : users_keyed store) by keyed.
  refine (conj Hq (conj Hu (conj Hk _))).
  destruct (@activation_single_match S request store token0 alice Hq Hu Hk)
    as (w' & Hpost & Hrow & _ & _ & Hgone & _).
  exists w'. exact (conj Hpost (conj Hrow Hgone)).
Defined.


(** Activating with a key no token has. *)
Lemma activation_failure_frame_run :
  let request := anonymous {[ "activation_token" := "nope" ]} in
  let out := respond (@UsersActivation.post S request) store in
  out = (fst out, snd out)
  ∧ status_code (snd out) = status.HTTP_400_BAD_REQUEST
  ∧ fst out = store.
Proof.
  intros request out.
  assert (Ho : out = (fst out, snd out)) by (by destruct out).
  assert (Hs : status_code (snd out) = status.HTTP_400_BAD_REQUEST) by run.
  refine (conj Ho (conj Hs _)).
  exact (@activation_failure_frame S request store (fst out) (snd out) Ho Hs).
Defined.

(** Bob changes his password with his password-change token; the token
    does not work a second time. *)
Lemma change_password_consumes_token_run :
  let request :=
    anonymous {[ "token" := "pwd-2"; "new_password" := "s3cret" ]} in
  let token := ActionToken.mk 11 "pwd-2" "password_change" 2 false in
  @ChangePasswordSerializer S store request = None
  ∧ password_change_tokens (data request !! "token") (action_tokens store)
    = [token]
  ∧ users store !! ActionToken.user token = Some bob
  ∧ users_keyed store
  ∧ ∃ w',
      @ChangePassword.post S F Mo request store =
        (w', Return (mkResponse status.HTTP_200_OK (Some (user_fields bob))))
      ∧ User.password <$> users w' !! 2 = Some "hashed:s3cret"
      ∧ ∃ detail,
          @ChangePassword.post S F Mo request w' =
            (w', Raise (ValidationError detail)).
Proof.
  intros request token.
  assert (Hv : @ChangePasswordSerializer S store request = None) by run.
  assert (Hone : password_change_tokens (data request !! "token")
                   (action_tokens store) = [token]) by run.
  assert (Hu : users store !! ActionToken.user token = Some bob) by run.
  assert (Hk : users_keyed store) by keyed.
  refine (conj Hv (conj Hone (conj Hu (conj Hk _)))).
  destruct (@change_password_consumes_token S F Mo request store token bob
              Hv Hone Hu Hk)
    as (w' & Hpost & Hrow & _ & _ & _ & _ & Hagain).
  exists w'. refine (conj Hpost (conj _ (Hagain request eq_refl))).
  change (ActionToken.user token) with 2 in Hrow. by rewrite Hrow.
Defined.

(** Bob deletes his own account. *)
Lemma destroy_deactivates_run :
  let self := detail "destroy" "2" in
  @UserViewSet.get_object P F self as_bob store = (store, Return bob)
  ∧ users_keyed store
  ∧ @UserViewSet.destroy P F self as_bob store =
      (with_users (<[2 := User.set_is_active false bob]> (users store)) store,
       Return (mkResponse status.HTTP_204_NO_CONTENT None))
  ∧ dom (<[2 := User.set_is_active false bob]> (users store)) = dom (users store).
Proof.
  intros self.
  assert (Hg : @UserViewSet.get_object P F self as_bob store
               = (store, Return bob)) by run.
  assert (Hk : users_keyed store) by keyed.
  destruct (@destroy_deactivates P F self as_bob store bob Hg Hk)
    as (Hd & _ & _ & _ & _ & Hdom & _).
  exact (conj Hg (conj Hk (conj Hd Hdom))).
Defined.

(** Bob deletes a user that does not exist. *)
Lemma destroy_not_found_run :
  let self := detail "destroy" "7" in
  kwargs (fst (@UserViewSet.get_queryset self as_bob)) !! "pk" = Some (KwStr "7")
  ∧ (∀ k, @UserViewSet.pk_value F (KwStr "7") = Some k →
          UserViewSet.in_int64 k = true ∧ users store !! k = None)
  ∧ snd (@UserViewSet.get_object P F self as_bob store) = Raise Http404
  ∧ @UserViewSet.destroy P F self as_bob store =
      (store, Return (mkResponse status.HTTP_204_NO_CONTENT None))
  ∧ @UserViewSet.destroy P F self as_bob
      (fst (@UserViewSet.destroy P F self as_bob store)) =
    @UserViewSet.destroy P F self as_bob store.
Proof.
  intros self.
  assert (Hv : kwargs (fst (@UserViewSet.get_queryset self as_bob)) !! "pk"
               = Some (KwStr "7")) by run.
  assert (Hnone : ∀ k, @UserViewSet.pk_value F (KwStr "7") = Some k →
                       UserViewSet.in_int64 k = true ∧ users store !! k = None).
  { intros k Hk. assert (H7 : @UserViewSet.pk_value F (KwStr "7") = Some 7) by run.
    rewrite H7 in Hk. injection Hk as <-. split; run. }
  destruct (@destroy_not_found P F self as_bob store) as [Hthen Hwhen].
  pose proof (Hwhen (KwStr "7") Hv Hnone) as Hg.
  exact (conj Hv (conj Hnone (conj Hg (Hthen Hg)))).
Defined.

(** C8 as stated fails on a key the database cannot bind: bob deletes the
    user 2^63, which does not exist; the lookup raises an overflow error,
    the handler does not catch it, and the answer is a server error, not
    204. *)
Lemma destroy_overflow_is_not_204 :
  let self := detail "destroy" "9223372036854775808" in
  kwargs (fst (@UserViewSet.get_queryset self as_bob)) !! "pk"
    = Some (KwStr "9223372036854775808")
  ∧ @UserViewSet.pk_value F (KwStr "9223372036854775808")
    = Some 9223372036854775808%Z
  ∧ users store !! 9223372036854775808%Z = None
  ∧ snd (@UserViewSet.get_object P F self as_bob store) = Raise OverflowError
  ∧ respond (@UserViewSet.destroy P F self as_bob) store =
      (store, mkResponse status.HTTP_500_INTERNAL_SERVER_ERROR None)
  ∧ status_code (snd (respond (@UserViewSet.destroy P F self as_bob) store))
    ≠ status.HTTP_204_NO_CONTENT.
Proof.
  intros self. split_and!; try run.
  vm_compute. discriminate.
Defined.

(** C5 as stated fails on the delete handler: bob, who is not staff,
    deletes a user that does not exist; the lookup raises not-found and
    the answer is 204, not 403. *)
Lemma destroy_not_found_is_not_403 :
  let self := detail "destroy" "7" in
  user as_bob = Authenticated bob
  ∧ user_is_staff (user as_bob) = false
  ∧ snd (@UserViewSet.get_object P F self as_bob store) = Raise Http404
  ∧ respond (@UserViewSet.handle S P F UserViewSet.Destroy self as_bob) store =
      (store, mkResponse status.HTTP_204_NO_CONTENT None)
  ∧ status_code
      (snd (respond (@UserViewSet.handle S P F UserViewSet.Destroy self as_bob)
              store))
    ≠ status.HTTP_403_FORBIDDEN.
Proof.
  intros self. split_and!; try run.
  vm_compute. discriminate.
Defined.

(** Bob retrieves a user that does not exist. *)
Lemma not_found_for_non_staff_run :
  let self := detail "retrieve" "7" in
  user_is_staff (user as_bob) = false
  ∧ snd (@UserViewSet.get_object P F self as_bob store) = Raise Http404
  ∧ respond (@UserViewSet.handle S P F UserViewSet.Retrieve self as_bob) store =
      (store, mkResponse status.HTTP_403_FORBIDDEN None).
Proof.
  intros self.
  assert (Hs : user_is_staff (user as_bob) = false) by run.
  assert (Hg : snd (@UserViewSet.get_object P F self as_bob store)
               = Raise Http404) by run.
  exact (conj Hs (conj Hg
           (proj1 (@not_found_for_non_staff S P F UserViewSet.Retrieve self
                     as_bob store Hs Hg)))).
Defined.

(** Bob retrieves and deletes "me". *)
Lemma me_is_the_requesting_user_run :
  let self := detail "retrieve" "me" in
  let own := mkView "retrieve" (<["pk" := KwInt 2]> {[ "pk" := KwStr "me" ]}) in
  user as_bob = Authenticated bob
  ∧ kwargs self !! "pk" = Some (KwStr "me")
  ∧ users store !! User.id bob = Some bob
  ∧ @filter_backends F as_bob bob = true
  ∧ forallb (λ p, @has_object_permission P p as_bob own (UserObj bob))
            (UserViewSet.get_permissions own) = true
  ∧ fst (@UserViewSet.get_queryset self as_bob) = own
  ∧ @UserViewSet.retrieve S P F self as_bob store =
      (store, Return (mkResponse status.HTTP_200_OK (Some (user_fields bob))))
  ∧ @UserViewSet.destroy P F self as_bob store =
      (with_users (<[2 := User.set_is_active false bob]> (users store)) store,
       Return (mkResponse status.HTTP_204_NO_CONTENT None)).
Proof.
  intros self own.
  assert (Hu : user as_bob = Authenticated bob) by done.
  assert (Hpk : kwargs self !! "pk" = Some (KwStr "me")) by run.
  assert (Hrow : users store !! User.id bob = Some bob) by run.
  assert (Hkeep : @filter_backends F as_bob bob = true) by done.
  assert (Hperm : forallb (λ p, @has_object_permission P p as_bob own (UserObj bob))
                    (UserViewSet.get_permissions own) = true) by run.
  pose proof (@me_is_the_requesting_user S P F self as_bob bob Hu Hpk)
    as (Hq & _ & _ & _ & _ & _ & Hpos).
  destruct (Hpos store bob Hrow Hkeep Hperm) as (_ & Hret & Hdel & _).
  exact (conj Hu (conj Hpk (conj Hrow (conj Hkeep (conj Hperm
           (conj Hq (conj Hret Hdel))))))).
Defined.

(** A reset-password request without an email address, with the mail
    service off and on. *)
Lemma reset_password_refusals_run :
  let request := anonymous ∅ in
  let errors : gmap string JVal :=
    {[ "email" := JList ["This field is required."] ]} in
  is_True (@EMAIL_SERVICE settings_without_email) = false
  ∧ @ResetPassword.post S settings_without_email Mo request store =
      (store, Return (mkResponse status.HTTP_501_NOT_IMPLEMENTED None))
  ∧ is_True (@EMAIL_SERVICE settings_with_email) = true
  ∧ @ResetPasswordSerializer S store request = inl errors
  ∧ @ResetPassword.post S settings_with_email Mo request store =
      (store, Return (mkResponse status.HTTP_400_BAD_REQUEST (Some errors))).
Proof.
  intros request errors.
  assert (Hoff : is_True (@EMAIL_SERVICE settings_without_email) = false) by done.
  assert (Hon : is_True (@EMAIL_SERVICE settings_with_email) = true) by done.
  assert (He : @ResetPasswordSerializer S store request = inl errors) by run.
  refine (conj Hoff (conj _ (conj Hon (conj He _)))).
  - exact (proj1 (proj1 (@reset_password_refusals S settings_without_email Mo
                           request store) Hoff)).
  - exact (proj2 (@reset_password_refusals S settings_with_email Mo
                    request store) Hon errors He).
Defined.

(** Bob logs out with the key of alice's token, then with his own. *)
Example logout_runs :
  let Se := settings_with_email in
  fst (@TemporaryTokenDestroy.destroy P Se (detail "destroy" "tmp-a") as_bob store)
    = store
  ∧ temporary_tokens
      (fst (@TemporaryTokenDestroy.destroy P Se (detail "destroy" "tmp-b")
              as_bob store))
    = {[ "tmp-a" := TemporaryToken.mk "tmp-a" 1 ]}.
Proof. split; run. Qed.
End Runs.

(** * Further properties of the handlers *)

(** ** UsersActivation *)

Section UsersActivationMore.
Context `{Serializers}.

Lemma no_key_no_match (ty : string) (l : list ActionToken.t) :
  filter (λ a, key_is None (ActionToken.key a) ∧ ActionToken.type a = ty) l = [].
Proof. apply filter_none. intros a _ [Hk _]. discriminate. Qed.

(** What an activation request can do to the store: nothing, or save the
    owner of the one matching token as active and delete the rows with the
    primary key of that token. *)
Lemma activation_effect request w :
  fst (UsersActivation.post request w) = w
  ∨ ∃ token0 u,
      ActionToken_objects_filter (data request !! "activation_token")
        "account_activation" w = (w, Return [token0])
      ∧ users w !! ActionToken.user token0 = Some u
      ∧ fst (UsersActivation.post request w) =
          with_action_tokens
            (filter (λ b, ActionToken.pk b ≠ ActionToken.pk token0)
                    (action_tokens w))
            (with_users (<[User.id u := User.set_is_active true u]> (users w)) w).
Proof.
  unfold UsersActivation.post, bind, ActionToken_objects_filter, gets.
  set (token := filter _ (action_tokens w)).
  destruct (length token =? 1)%nat eqn:Hlen; [|by left].
  apply length_one_inv in Hlen as [t0 Ht0]. rewrite Ht0. simpl.
  unfold ActionToken_user, User_objects_get.
  destruct (users w !! ActionToken.user t0) as [u|] eqn:Hu; [|by left].
  right. by exists t0, u.
Qed.

(** X1. An activation request whose body has no activation_token is
    answered 400, with a message that quotes the word None, and leaves
    the store as it was. *)
Theorem activation_without_token request w :
  data request !! "activation_token" = None →
  UsersActivation.post request w =
    (w, Return (mkResponse status.HTTP_400_BAD_REQUEST
                  (Some {[ "activation_token" :=
                             JStr (dquote +:+ "None" +:+ dquote
                                   +:+ " is not a valid activation_token.") ]}))).
Proof.
  intros Hnone.
  unfold UsersActivation.post, bind, ActionToken_objects_filter, gets.
  rewrite Hnone, no_key_no_match. reflexivity.
Qed.

(** X2. An activation token works once: after a request that matched
    exactly one token and activated its owner, every request with the same
    token is answered 400 and leaves the store as the first request left
    it. *)
Theorem activation_single_use request w token0 u request2 :
  ActionToken_objects_filter (data request !! "activation_token")
    "account_activation" w = (w, Return [token0]) →
  users w !! ActionToken.user token0 = Some u →
  data request2 !! "activation_token" = data request !! "activation_token" →
  let w' := fst (UsersActivation.post request w) in
  snd (UsersActivation.post request w) =
    Return (mkResponse status.HTTP_200_OK
              (Some (serializer_data UserSerializer request
                       (User.set_is_active true u))))
  ∧ UsersActivation.post request2 w' =
      (w', Return (mkResponse status.HTTP_400_BAD_REQUEST
                     (Some {[ "activation_token" :=
                                JStr (UsersActivation.error
                                        (data request !! "activation_token")) ]}))).
Proof.
  intros Hq Hu Hsame w'.
  assert (Hpost : UsersActivation.post request w =
    (with_action_tokens
       (filter (λ b, ActionToken.pk b ≠ ActionToken.pk token0) (action_tokens w))
       (with_users (<[User.id u := User.set_is_active true u]> (users w)) w),
     Return (mkResponse status.HTTP_200_OK
               (Some (serializer_data UserSerializer request
                        (User.set_is_active true u)))))).
  { rewrite (post_single _ _ _ Hq).
    unfold ActionToken_user, User_objects_get, bind. by rewrite Hu. }
  subst w'. rewrite Hpost. simpl. split; [done|].
  unfold UsersActivation.post at 1, bind, ActionToken_objects_filter, gets.
  simpl. rewrite Hsame.
  unfold ActionToken_objects_filter, gets in Hq. injection Hq as Hq.
  rewrite filter_none; [done|].
  intros a Ha Hmatch. apply list_elem_of_filter in Ha as [Hpk Hin].
  assert (Ha : a ∈ [token0]) by (rewrite <- Hq; by apply list_elem_of_filter).
  apply list_elem_of_singleton in Ha. by subst.
Qed.

(** X3. Whatever the request, activation creates nothing and deactivates
    nobody: every user row is as before or is the same row made active, the
    set of users is the same, every action token left was there before, and
    the temporary tokens and the outbox are untouched. *)
Theorem activation_frame request w :
  users_keyed w →
  let w' := fst (UsersActivation.post request w) in
  (∀ k u, users w !! k = Some u →
          users w' !! k = Some u ∨ users w' !! k = Some (User.set_is_active true u))
  ∧ dom (users w') = dom (users w)
  ∧ (∀ a, a ∈ action_tokens w' → a ∈ action_tokens w)
  ∧ temporary_tokens w' = temporary_tokens w
  ∧ outbox w' = outbox w.
Proof.
  intros Hk w'. subst w'.
  destruct (activation_effect request w) as [->|(t0 & u0 & _ & Hu0 & ->)].
  { split_and!; try done. intros k u Hu. by left. }
  assert (Hid : User.id u0 = ActionToken.user t0) by exact (Hk _ _ Hu0).
  simpl. rewrite Hid. split_and!; try done.
  - intros k u Hu. destruct (decide (k = ActionToken.user t0)) as [->|Hne].
    + right. rewrite Hu0 in Hu. injection Hu as ->. apply lookup_insert_eq.
    + left. by rewrite lookup_insert_ne.
  - by apply dom_insert_lookup_L.
  - intros a Ha. by apply list_elem_of_filter in Ha as [_ ?].
Qed.
End UsersActivationMore.

(** ** UserViewSet *)

Section UserViewSetMore.
Context `{Serializers, Permissions, Framework}.

Import UserViewSet.

(** The row a resolved request works on is the one stored under the key
    the view holds after [get_queryset]. *)
Lemma get_object_key self request w w1 obj :
  get_object self request w = (w1, Return obj) →
  ∃ v k, kwargs (fst (get_queryset self request)) !! "pk" = Some v
         ∧ pk_value v = Some k
         ∧ users w !! k = Some obj.
Proof.
  unfold get_object.
  destruct (get_queryset self request) as [self' queryset]. simpl.
  destruct (kwargs self' !! "pk") as [v|]; [|done].
  unfold bind, get_object_or_404.
  destruct (pk_value v) as [k|] eqn:Hpk; [|done].
  destruct (users w !! k) as [u|] eqn:Hu; [|by destruct (in_int64 k)].
  destruct (filter_queryset request queryset u); [|done].
  destruct (check_object_permissions _ self' request (UserObj u) w)
    as [w2 [[]|e]]; [|done].
  intros [= _ <-]. by exists v, k.
Qed.

Lemma try_except_raise_frame {A} (m : M A) e w :
  fst (try_except_Http404 m (raise e) w) = fst (m w).
Proof.
  unfold try_except_Http404, raise.
  by destruct (m w) as [w1 [a|[]]].
Qed.

Lemma super_retrieve_frame self request w :
  fst (super_retrieve self request w) = w.
Proof.
  pose proof (get_object_frame self request w) as Hf.
  unfold super_retrieve, bind.
  by destruct (get_object self request w) as [w1 [obj|e]]; simpl in *; subst.
Qed.

(** An update writes one user row or nothing. *)
Lemma super_update_effect self request partial w :
  fst (super_update self request partial w) = w
  ∨ ∃ u, fst (super_update self request partial w) =
           with_users (<[User.id u := u]> (users w)) w.
Proof.
  pose proof (get_object_frame self request w) as Hf.
  unfold super_update, bind, gets.
  destruct (get_object self request w) as [w1 [obj|e]]; simpl in *; subst;
    [|by left].
  destruct (serializer_update _ w request partial obj) as [errors|obj'];
    [by left|].
  right. by exists obj'.
Qed.

Lemma destroy_effect_row self request w :
  fst (destroy self request w) = w
  ∨ ∃ obj, get_object self request w = (w, Return obj)
           ∧ fst (destroy self request w) =
               with_users (<[User.id obj := User.set_is_active false obj]> (users w)) w.
Proof.
  pose proof (get_object_frame self request w) as Hf.
  unfold destroy, bind, try_except_Http404.
  destruct (get_object self request w) as [w1 [obj|e]] eqn:Hg;
    simpl in *; subst.
  - right. by exists obj.
  - left. by destruct e.
Qed.

(** Every detail handler writes one user row or nothing. *)
Lemma handle_effect h self request w :
  fst (handle h self request w) = w
  ∨ ∃ u, fst (handle h self request w) =
           with_users (<[User.id u := u]> (users w)) w.
Proof.
  destruct h; simpl.
  - left. unfold retrieve.
    destruct (user_is_staff (user request));
      rewrite ?try_except_raise_frame; apply super_retrieve_frame.
  - unfold update. destruct (user_is_staff (user request));
      rewrite ?try_except_raise_frame; apply super_update_effect.
  - unfold partial_update, update. destruct (user_is_staff (user request));
      rewrite ?try_except_raise_frame; apply super_update_effect.
  - destruct (destroy_effect_row self request w) as [Hd|(obj & _ & Hd)];
      [by left|right]. by exists (User.set_is_active false obj).
Qed.

(** X4. Retrieving never writes: whatever the request and its outcome, the
    store after [retrieve] is the store before. *)
Theorem retrieve_reads_only self request w :
  fst (retrieve self request w) = w
  ∧ fst (respond (retrieve self request) w) = w.
Proof.
  assert (Hr : fst (retrieve self request w) = w).
  { unfold retrieve. destruct (user_is_staff (user request));
      rewrite ?try_except_raise_frame; apply super_retrieve_frame. }
  split; [done|]. unfold respond.
  by destruct (retrieve self request w) as [w1 [r|e]].
Qed.

(** X5. For a staff user the not-found of the lookup is not rewritten:
    retrieve, update and partial_update answer 404 (delete still answers
    204), and the store is left as it was. *)
Theorem not_found_for_staff h self request w :
  user_is_staff (user request) = true →
  snd (get_object self request w) = Raise Http404 →
  respond (handle h self request) w =
    (w, match h with
        | Destroy => mkResponse status.HTTP_204_NO_CONTENT None
        | Retrieve | Update | PartialUpdate =>
            mkResponse status.HTTP_404_NOT_FOUND None
        end).
Proof.
  intros Hstaff Hg. unfold respond. destruct h; simpl.
  - unfold retrieve. rewrite Hstaff.
    by rewrite (super_retrieve_not_found _ _ _ Hg).
  - unfold update. rewrite Hstaff.
    by rewrite (super_update_not_found _ _ _ _ Hg).
  - unfold partial_update, update. rewrite Hstaff.
    by rewrite (super_update_not_found _ _ _ _ Hg).
  - by rewrite (destroy_swallows_not_found _ _ _ Hg).
Qed.

(** A request for a stored user that the owner check refuses is denied. *)
Lemma get_object_refused self request requester w v k u :
  user request = Authenticated requester →
  action (fst (get_queryset self request)) ≠ "create" →
  action (fst (get_queryset self request)) ≠ "list" →
  kwargs (fst (get_queryset self request)) !! "pk" = Some v →
  pk_value v = Some k →
  users w !! k = Some u →
  filter_backends request u = true →
  IsOwner_has_object_permission request (fst (get_queryset self request))
    (UserObj u) = false →
  get_object self request w = (w, Raise PermissionDenied).
Proof.
  intros Hreq Hc Hl Hv Hpk Hu Hf Hown. unfold get_object.
  destruct (get_queryset self request) as [self' queryset] eqn:Hq.
  simpl in *. rewrite Hv. unfold bind, get_object_or_404. rewrite Hpk, Hu.
  assert (Hall : queryset = λ _, true).
  { unfold get_queryset in Hq. by case_bool_decide; injection Hq as _ <-. }
  subst queryset. unfold filter_queryset. rewrite Hf. simpl.
  unfold check_object_permissions, get_permissions.
  rewrite !bool_decide_eq_false_2 by done. simpl. rewrite Hown. simpl.
  unfold permission_denied. by rewrite Hreq.
Qed.

(** X6. When the request names a stored user and the owner check of the
    project refuses the requester, retrieve, update, partial_update and
    delete all answer 403 and write nothing; delete swallows a not-found
    but not a refusal. *)
Theorem refused_by_owner_check h self request requester w v k u :
  user request = Authenticated requester →
  action self ≠ "create" →
  action self ≠ "list" →
  kwargs (fst (get_queryset self request)) !! "pk" = Some v →
  pk_value v = Some k →
  users w !! k = Some u →
  filter_backends request u = true →
  IsOwner_has_object_permission request (fst (get_queryset self request))
    (UserObj u) = false →
  respond (handle h self request) w =
    (w, mkResponse status.HTTP_403_FORBIDDEN None).
Proof.
  intros Hreq Hc Hl Hv Hpk Hu Hf Hown.
  assert (Ha : action (fst (get_queryset self request)) = action self).
  { unfold get_queryset. by case_bool_decide. }
  assert (Hg : get_object self request w = (w, Raise PermissionDenied)).
  { apply (get_object_refused _ _ requester _ v k u); try done;
      by rewrite Ha. }
  unfold respond. destruct h; simpl.
  - unfold retrieve, super_retrieve, try_except_Http404, bind.
    destruct (user_is_staff (user request)); by rewrite Hg.
  - unfold update, super_update, try_except_Http404, bind.
    destruct (user_is_staff (user request)); by rewrite Hg.
  - unfold partial_update, update, super_update, try_except_Http404, bind.
    destruct (user_is_staff (user request)); by rewrite Hg.
  - unfold destroy, try_except_Http404, bind. by rewrite Hg.
Qed.

(** X7. An update whose data the serializer rejects is answered 400 with
    the errors of the serializer, and nothing is saved. *)
Theorem update_invalid_data self request partial w obj errors :
  get_object self request w = (w, Return obj) →
  serializer_update (get_serializer_class self) w request partial obj
    = inl errors →
  respond (update self request partial) w =
    (w, mkResponse status.HTTP_400_BAD_REQUEST (Some errors)).
Proof.
  intros Hg Herr.
  unfold respond, update, super_update, try_except_Http404, bind, gets.
  destruct (user_is_staff (user request)); by rewrite Hg, Herr.
Qed.

(** X8. On the update and partial_update actions the update serializer is
    the one that runs: when the request resolves and its data validates,
    the instance the update serializer produced is saved under its primary
    key and returned, serialized by the same serializer, with status 200. *)
Theorem update_saves_instance self request partial w obj obj' :
  action self = "update" ∨ action self = "partial_update" →
  get_object self request w = (w, Return obj) →
  serializer_update UserUpdateSerializer w request partial obj = inr obj' →
  update self request partial w =
    (with_users (<[User.id obj' := obj']> (users w)) w,
     Return (mkResponse status.HTTP_200_OK
               (Some (serializer_data UserUpdateSerializer request obj'))))
  ∧ users (fst (update self request partial w)) !! User.id obj' = Some obj'.
Proof.
  intros Hact Hg Hok.
  assert (Hcls : get_serializer_class self = UserUpdateSerializer).
  { unfold get_serializer_class.
    destruct Hact as [-> | ->]; by vm_compute. }
  assert (Hu : update self request partial w =
    (with_users (<[User.id obj' := obj']> (users w)) w,
     Return (mkResponse status.HTTP_200_OK
               (Some (serializer_data UserUpdateSerializer request obj'))))).
  { unfold update, super_update, try_except_Http404, bind, gets.
    destruct (user_is_staff (user request)); by rewrite Hg, Hcls, Hok. }
  split; [done|]. rewrite Hu. apply lookup_insert_eq.
Qed.

(** X18. A retrieve request that names a stored user, kept by the filter
    backends and admitted by the owner check, is answered 200 with the row
    as the plain user serializer renders it, for staff and others alike. *)
Theorem retrieve_returns_row self request w v k u :
  action self = "retrieve" →
  kwargs (fst (get_queryset self request)) !! "pk" = Some v →
  pk_value v = Some k →
  users w !! k = Some u →
  filter_backends request u = true →
  IsOwner_has_object_permission request (fst (get_queryset self request))
    (UserObj u) = true →
  respond (retrieve self request) w =
    (w, mkResponse status.HTTP_200_OK
          (Some (serializer_data UserSerializer request u))).
Proof.
  intros Hact Hv Hpk Hu Hf Hown.
  assert (Ha : action (fst (get_queryset self request)) = "retrieve").
  { rewrite <- Hact. unfold get_queryset. by case_bool_decide. }
  assert (Hg : get_object self request w = (w, Return u)).
  { apply (get_object_resolves _ _ _ v k); try done.
    unfold get_permissions. rewrite Ha. simpl. by rewrite Hown. }
  assert (Hcls : get_serializer_class self = UserSerializer).
  { unfold get_serializer_class. by rewrite Hact. }
  unfold respond, retrieve, super_retrieve, try_except_Http404, bind.
  destruct (user_is_staff (user request)); by rewrite Hg, Hcls.
Qed.

(** X9. No detail handler removes a user row or touches another table:
    after retrieve, update, partial_update or delete every key of the user
    table is still there, and the action tokens, the temporary tokens and
    the outbox are as before. *)
Theorem detail_handlers_keep_rows h self request w :
  let w' := fst (handle h self request w) in
  dom (users w) ⊆ dom (users w')
  ∧ action_tokens w' = action_tokens w
  ∧ temporary_tokens w' = temporary_tokens w
  ∧ outbox w' = outbox w.
Proof.
  intros w'. subst w'.
  destruct (handle_effect h self request w) as [->|[u ->]]; [done|].
  simpl. split_and!; try done.
  rewrite dom_insert_L. apply union_subseteq_r.
Qed.

(** X10. Deleting twice is deleting once: under the keyed-table
    invariant, the store after a second identical delete request is the
    store after the first, whatever the two answers are. *)
Theorem destroy_twice self request w :
  users_keyed w →
  fst (destroy self request (fst (destroy self request w))) =
    fst (destroy self request w).
Proof.
  intros Hk.
  destruct (destroy_effect_row self request w) as [Hd|(obj & Hg & Hd)].
  { by rewrite !Hd. }
  destruct (get_object_key _ _ _ _ _ Hg) as (v & k & Hv & Hpk & Hu).
  assert (Hid : User.id obj = k) by exact (Hk _ _ Hu). subst k.
  rewrite Hd.
  set (obj0 := User.set_is_active false obj).
  set (w' := with_users (<[User.id obj := obj0]> (users w)) w).
  destruct (destroy_effect_row self request w') as [Hd'|(obj2 & Hg' & Hd')];
    [done|].
  destruct (get_object_key _ _ _ _ _ Hg') as (v2 & k2 & Hv2 & Hpk2 & Hu2).
  rewrite Hv in Hv2. injection Hv2 as <-.
  rewrite Hpk in Hpk2. injection Hpk2 as <-.
  assert (Hrow : users w' !! User.id obj = Some obj0) by apply lookup_insert_eq.
  rewrite Hrow in Hu2. injection Hu2 as <-.
  rewrite Hd'. unfold w', with_users. simpl.
  by rewrite insert_insert_eq.
Qed.
End UserViewSetMore.

(** ** The permission gate of UserViewSet *)

Section PermissionGateFacts.
Context `{ViewPermissions}.

(** X11. Who passes the gate depends on the action alone for create and
    list: a create request passes whoever sends it; a list request passes
    exactly when the user is staff; for every other action an anonymous
    request is refused as not authenticated, before the owner check is
    looked at. *)
Theorem access_by_action self request w :
  (action self = "create" →
     check_permissions (UserViewSet.get_permissions self) self request w
     = (w, Return tt))
  ∧ (action self = "list" →
       (check_permissions (UserViewSet.get_permissions self) self request w
        = (w, Return tt)
        ↔ user_is_staff (user request) = true))
  ∧ (action self ≠ "create" → action self ≠ "list" →
       user request = AnonymousUser →
       check_permissions (UserViewSet.get_permissions self) self request w
       = (w, Raise NotAuthenticated)).
Proof.
  unfold check_permissions, UserViewSet.get_permissions. split_and!.
  - intros ->. reflexivity.
  - intros ->. simpl. rewrite andb_true_r.
    destruct (user_is_staff (user request)); [done|].
    unfold permission_denied. split; [|done].
    by destruct (user request).
  - intros Hc Hl Hanon. rewrite !bool_decide_eq_false_2 by done.
    simpl. unfold permission_denied. by rewrite Hanon.
Qed.
End PermissionGateFacts.

(** ** ResetPassword *)

Section ResetPasswordMore.
Context `{Serializers, Settings, Models}.

(** X12. A reset-password request is answered 201 exactly when the mail
    service is on, the data validates to a user and sending the reset
    message to that user returns; the store is then the one the sending
    left. *)
Theorem reset_password_created request w w' :
  (∃ r, ResetPassword.post request w = (w', Return r)
        ∧ status_code r = status.HTTP_201_CREATED)
  ↔ (is_True EMAIL_SERVICE = true
     ∧ ∃ user, ResetPasswordSerializer w request = inr user
               ∧ send_reset_password user w = (w', Return tt)).
Proof.
  unfold ResetPassword.post. split.
  - intros (r & Hpost & Hst).
    destruct (is_True EMAIL_SERVICE); simpl in Hpost.
    + split; [done|]. unfold bind, gets in Hpost.
      destruct (ResetPasswordSerializer w request) as [errors|u].
      * injection Hpost as <- <-. discriminate.
      * exists u. split; [done|].
        destruct (send_reset_password u w) as [w1 [[]|e]]; [|done].
        by injection Hpost as <- _.
    + injection Hpost as <- <-. discriminate.
  - intros (Hon & u & Hser & Hsend). rewrite Hon. simpl.
    unfold bind, gets. rewrite Hser, Hsend. by eexists.
Qed.
End ResetPasswordMore.

(** ** ChangePassword *)

Section ChangePasswordMore.
Context `{Serializers, Framework, Models}.

(** X13. A change-password request whose data the serializer rejects is
    answered 400 with the errors of the serializer before any token is
    looked up: no password changes and no token is expired. *)
Theorem change_password_invalid_data request w errors :
  ChangePasswordSerializer w request = Some errors →
  respond (ChangePassword.post request) w =
    (w, mkResponse status.HTTP_400_BAD_REQUEST (Some errors)).
Proof.
  intros Herr. unfold respond, ChangePassword.post, bind, gets.
  by rewrite Herr.
Qed.
End ChangePasswordMore.

(** ** TemporaryTokenDestroy *)

Section TemporaryTokenDestroyMore.
Context `{Permissions, Settings}.

Import TemporaryTokenDestroy.

(** A key under which the requester has no token of their own is not
    found. *)
Lemma destroy_token_not_found self request w s u :
  user request = Authenticated u →
  kwargs self !! "pk" = Some (KwStr s) →
  (∀ t, temporary_tokens w !! s = Some t → TemporaryToken.user t ≠ User.id u) →
  destroy self request w = (w, Raise Http404).
Proof.
  intros Hu Hpk Hforeign.
  unfold destroy, get_object, get_queryset, bind. rewrite Hu. simpl.
  rewrite Hpk. unfold get_object_or_404.
  destruct (temporary_tokens w !! s) as [t|] eqn:Ht; [|done].
  rewrite (bool_decide_eq_false_2 (TemporaryToken.user t = User.id u))
    by by apply Hforeign.
  by rewrite andb_false_r.
Qed.

(** X14. The key of another user's token is answered like a key that
    does not exist: when the supplied key is absent from the table or
    bound to another user, the answer is 404 and the store is
    untouched. *)
Theorem logout_foreign_key self request w s u :
  user request = Authenticated u →
  kwargs self !! "pk" = Some (KwStr s) →
  (∀ t, temporary_tokens w !! s = Some t → TemporaryToken.user t ≠ User.id u) →
  respond (destroy self request) w =
    (w, mkResponse status.HTTP_404_NOT_FOUND None).
Proof.
  intros Hu Hpk Hforeign. unfold respond.
  by rewrite (destroy_token_not_found _ _ _ _ _ Hu Hpk Hforeign).
Qed.

(** X15. Logging out works once: a request with the key of the
    requester's own token, admitted by the permission classes of the
    project, is answered 204 and removes that token and no other; the same
    request again is answered 404 and changes nothing. *)
Theorem logout_once self request w s t u :
  user request = Authenticated u →
  kwargs self !! "pk" = Some (KwStr s) →
  temporary_tokens w !! s = Some t →
  TemporaryToken.key t = s →
  TemporaryToken.user t = User.id u →
  forallb (λ p, has_object_permission p request self (TemporaryTokenObj t))
          DEFAULT_PERMISSION_CLASSES = true →
  let w' := with_temporary_tokens (delete s (temporary_tokens w)) w in
  respond (destroy self request) w =
    (w', mkResponse status.HTTP_204_NO_CONTENT None)
  ∧ temporary_tokens w' !! s = None
  ∧ (∀ k, k ≠ s → temporary_tokens w' !! k = temporary_tokens w !! k)
  ∧ respond (destroy self request) w' =
      (w', mkResponse status.HTTP_404_NOT_FOUND None).
Proof.
  intros Hu Hpk Ht Hkey Huser Hperm w'. split_and!.
  - unfold respond.
    by rewrite (logout_deletes_own_token _ _ _ _ _ _ Hu Hpk Ht Hkey Huser Hperm).
  - apply lookup_delete_eq.
  - intros k Hne. simpl. by rewrite lookup_delete_ne.
  - unfold respond. rewrite (destroy_token_not_found _ _ w' s u Hu Hpk); [done|].
    intros t'. simpl. by rewrite lookup_delete_eq.
Qed.
End TemporaryTokenDestroyMore.

(** ** ObtainTemporaryAuthToken *)

Section LoginFacts.
Context `{Permissions, Settings, Login}.

(** X16. A login whose credentials the serializer rejects is answered 400
    with the errors of the serializer; no token is asked for and the store
    is untouched. *)
Theorem login_invalid_credentials request w errors :
  CustomAuthTokenSerializer w request = inl errors →
  respond (ObtainTemporaryAuthToken.post request) w =
    (w, mkResponse status.HTTP_400_BAD_REQUEST (Some errors)).
Proof.
  intros Herr. unfold respond, ObtainTemporaryAuthToken.post, bind, gets.
  by rewrite Herr.
Qed.

(** X17. Login and logout undo each other: when the token a login issues
    is a new row stored under its key for the user who logged in, the
    response carries that key, and a logout of the same user with the key,
    admitted by the permission classes of the project, is answered 204 and
    leaves the token table as it was before the login. *)
Theorem login_then_logout request w u w1 t self logout_request :
  CustomAuthTokenSerializer w request = inr u →
  get_temporary_token u w = (w1, Return t) →
  temporary_tokens w !! TemporaryToken.key t = None →
  temporary_tokens w1 = <[TemporaryToken.key t := t]> (temporary_tokens w) →
  TemporaryToken.user t = User.id u →
  user logout_request = Authenticated u →
  kwargs self !! "pk" = Some (KwStr (TemporaryToken.key t)) →
  forallb (λ p, has_object_permission p logout_request self (TemporaryTokenObj t))
          DEFAULT_PERMISSION_CLASSES = true →
  ObtainTemporaryAuthToken.post request w =
    (w1, Return (mkResponse status.HTTP_200_OK
                   (Some {[ "token" := JStr (TemporaryToken.key t) ]})))
  ∧ snd (TemporaryTokenDestroy.destroy self logout_request w1) =
      Return (mkResponse status.HTTP_204_NO_CONTENT None)
  ∧ temporary_tokens (fst (TemporaryTokenDestroy.destroy self logout_request w1))
    = temporary_tokens w.
Proof.
  intros Hser Hissue Hfresh Hstored Huser Hreq Hpk Hperm.
  assert (Ht : temporary_tokens w1 !! TemporaryToken.key t = Some t).
  { rewrite Hstored. apply lookup_insert_eq. }
  pose proof (logout_deletes_own_token self logout_request w1 _ t u
                Hreq Hpk Ht eq_refl Huser Hperm) as Hout.
  split_and!.
  - unfold ObtainTemporaryAuthToken.post, bind, gets.
    by rewrite Hser, Hissue.
  - by rewrite Hout.
  - rewrite Hout. simpl. rewrite Hstored.
    by rewrite delete_insert_eq, delete_id.
Qed.
End LoginFacts.

(** ** More runs on the small project *)

Section MoreRuns.
Import Fixtures Scenarios.

Local Abbreviation S := serializers.
Local Abbreviation P := permissions.
Local Abbreviation F := framework.
Local Abbreviation Mo := models.
Local Abbreviation Se := settings_with_email.
Local Abbreviation L := login.

Ltac run := vm_compute; reflexivity.
Ltac keyed := apply (bool_decide_unpack _); vm_compute; exact I.

(** Activating with an empty body. *)
Lemma activation_without_token_run :
  let request := anonymous ∅ in
  data request !! "activation_token" = None
  ∧ snd (@UsersActivation.post S request store) =
      Return (mkResponse status.HTTP_400_BAD_REQUEST
                (Some {[ "activation_token" :=
                           JStr (dquote +:+ "None" +:+ dquote
                                 +:+ " is not a valid activation_token.") ]})).
Proof.
  intros request.
  assert (Hn : data request !! "activation_token" = None) by run.
  refine (conj Hn _).
  by rewrite (@activation_without_token S request store Hn).
Defined.

(** Activating alice twice with the same token. *)
Lemma activation_single_use_run :
  let request := anonymous {[ "activation_token" := "act-1" ]} in
  let token0 := ActionToken.mk 10 "act-1" "account_activation" 1 false in
  ActionToken_objects_filter (data request !! "activation_token")
    "account_activation" store = (store, Return [token0])
  ∧ users store !! ActionToken.user token0 = Some alice
  ∧ status_code
      (snd (respond (@UsersActivation.post S request)
              (fst (@UsersActivation.post S request store))))
    = status.HTTP_400_BAD_REQUEST.
Proof.
  intros request token0.
  assert (Hq : ActionToken_objects_filter (data request !! "activation_token")
                 "account_activation" store = (store, Return [token0])) by run.
  assert (Hu : users store !! ActionToken.user token0 = Some alice) by run.
  refine (conj Hq (conj Hu _)).
  destruct (@activation_single_use S request store token0 alice request
              Hq Hu eq_refl) as [_ Hagain].
  unfold respond. by rewrite Hagain.
Defined.

(** The frame of an activation on the store of the small project. *)
Lemma activation_frame_run :
  let request := anonymous {[ "activation_token" := "act-1" ]} in
  users_keyed store
  ∧ dom (users (fst (@UsersActivation.post S request store))) = dom (users store)
  ∧ outbox (fst (@UsersActivation.post S request store)) = outbox store.
Proof.
  intros request.
  assert (Hk : users_keyed store) by keyed.
  destruct (@activation_frame S request store Hk) as (_ & Hdom & _ & _ & Hout).
  exact (conj Hk (conj Hdom Hout)).
Defined.

(** Carol, who is staff, retrieves a user that does not exist. *)
Lemma not_found_for_staff_run :
  let self := detail "retrieve" "7" in
  user_is_staff (user as_carol) = true
  ∧ snd (@UserViewSet.get_object P F self as_carol store) = Raise Http404
  ∧ respond (@UserViewSet.handle S P F UserViewSet.Retrieve self as_carol) store =
      (store, mkResponse status.HTTP_404_NOT_FOUND None).
Proof.
  intros self.
  assert (Hs : user_is_staff (user as_carol) = true) by run.
  assert (Hg : snd (@UserViewSet.get_object P F self as_carol store)
               = Raise Http404) by run.
  exact (conj Hs (conj Hg
           (@not_found_for_staff S P F UserViewSet.Retrieve self as_carol
              store Hs Hg))).
Defined.

(** Alice tries to delete bob. *)
Lemma refused_by_owner_check_run :
  let self := detail "destroy" "2" in
  user as_alice = Authenticated alice
  ∧ action self ≠ "create"
  ∧ action self ≠ "list"
  ∧ kwargs (fst (@UserViewSet.get_queryset self as_alice)) !! "pk"
    = Some (KwStr "2")
  ∧ @UserViewSet.pk_value F (KwStr "2") = Some 2
  ∧ users store !! 2 = Some bob
  ∧ @filter_backends F as_alice bob = true
  ∧ @IsOwner_has_object_permission P as_alice
      (fst (@UserViewSet.get_queryset self as_alice)) (UserObj bob) = false
  ∧ respond (@UserViewSet.handle S P F UserViewSet.Destroy self as_alice) store =
      (store, mkResponse status.HTTP_403_FORBIDDEN None).
Proof.
  intros self.
  assert (H1 : user as_alice = Authenticated alice) by done.
  assert (H2 : action self ≠ "create") by done.
  assert (H3 : action self ≠ "list") by done.
  assert (H4 : kwargs (fst (@UserViewSet.get_queryset self as_alice)) !! "pk"
               = Some (KwStr "2")) by run.
  assert (H5 : @UserViewSet.pk_value F (KwStr "2") = Some 2) by run.
  assert (H6 : users store !! 2 = Some bob) by run.
  assert (H7 : @filter_backends F as_alice bob = true) by done.
  assert (H8 : @IsOwner_has_object_permission P as_alice
                 (fst (@UserViewSet.get_queryset self as_alice)) (UserObj bob)
               = false) by run.
  exact (conj H1 (conj H2 (conj H3 (conj H4 (conj H5 (conj H6 (conj H7 (conj H8
           (@refused_by_owner_check S P F UserViewSet.Destroy self as_alice alice
              store (KwStr "2") 2 bob H1 H2 H3 H4 H5 H6 H7 H8))))))))).
Defined.

(** Bob updates his first name to the empty string. *)
Lemma update_invalid_data_run :
  let self := detail "update" "2" in
  let request := as_bob_with {[ "first_name" := EmptyString ]} in
  let errors : gmap string JVal :=
    {[ "first_name" := JList ["This field may not be blank."] ]} in
  @UserViewSet.get_object P F self request store = (store, Return bob)
  ∧ @serializer_update S (UserViewSet.get_serializer_class self) store request
      false bob = inl errors
  ∧ respond (@UserViewSet.update S P F self request false) store =
      (store, mkResponse status.HTTP_400_BAD_REQUEST (Some errors)).
Proof.
  intros self request errors.
  assert (Hg : @UserViewSet.get_object P F self request store
               = (store, Return bob)) by run.
  assert (He : @serializer_update S (UserViewSet.get_serializer_class self)
                 store request false bob = inl errors) by run.
  exact (conj Hg (conj He
           (@update_invalid_data S P F self request false store bob errors Hg He))).
Defined.

(** Bob updates his first name. *)
Lemma update_saves_instance_run :
  let self := detail "partial_update" "2" in
  let request := as_bob_with {[ "first_name" := "Robert" ]} in
  let robert :=
    User.mk 2 "bob@example.org" "hashed:b" "Robert" "Roy" true false false in
  (action self = "update" ∨ action self = "partial_update")
  ∧ @UserViewSet.get_object P F self request store = (store, Return bob)
  ∧ @serializer_update S UserUpdateSerializer store request true bob = inr robert
  ∧ users (fst (@UserViewSet.update S P F self request true store)) !! 2
    = Some robert.
Proof.
  intros self request robert.
  assert (Ha : action self = "update" ∨ action self = "partial_update")
    by (by right).
  assert (Hg : @UserViewSet.get_object P F self request store
               = (store, Return bob)) by run.
  assert (Hs : @serializer_update S UserUpdateSerializer store request true bob
               = inr robert) by run.
  exact (conj Ha (conj Hg (conj Hs
           (proj2 (@update_saves_instance S P F self request true store bob
                     robert Ha Hg Hs))))).
Defined.

(** Bob retrieves his own row. *)
Lemma retrieve_returns_row_run :
  let self := detail "retrieve" "2" in
  action self = "retrieve"
  ∧ kwargs (fst (@UserViewSet.get_queryset self as_bob)) !! "pk"
    = Some (KwStr "2")
  ∧ @UserViewSet.pk_value F (KwStr "2") = Some 2
  ∧ users store !! 2 = Some bob
  ∧ @filter_backends F as_bob bob = true
  ∧ @IsOwner_has_object_permission P as_bob
      (fst (@UserViewSet.get_queryset self as_bob)) (UserObj bob) = true
  ∧ respond (@UserViewSet.retrieve S P F self as_bob) store =
      (store, mkResponse status.HTTP_200_OK (Some (user_fields bob))).
Proof.
  intros self.
  assert (H1 : action self = "retrieve") by done.
  assert (H2 : kwargs (fst (@UserViewSet.get_queryset self as_bob)) !! "pk"
               = Some (KwStr "2")) by run.
  assert (H3 : @UserViewSet.pk_value F (KwStr "2") = Some 2) by run.
  assert (H4 : users store !! 2 = Some bob) by run.
  assert (H5 : @filter_backends F as_bob bob = true) by done.
  assert (H6 : @IsOwner_has_object_permission P as_bob
                 (fst (@UserViewSet.get_queryset self as_bob)) (UserObj bob)
               = true) by run.
  exact (conj H1 (conj H2 (conj H3 (conj H4 (conj H5 (conj H6
           (@retrieve_returns_row S P F self as_bob store (KwStr "2") 2 bob
              H1 H2 H3 H4 H5 H6))))))).
Defined.

(** Bob deletes his account twice. *)
Lemma destroy_twice_run :
  let self := detail "destroy" "2" in
  users_keyed store
  ∧ fst (@UserViewSet.destroy P F self as_bob
           (fst (@UserViewSet.destroy P F self as_bob store)))
    = fst (@UserViewSet.destroy P F self as_bob store).
Proof.
  intros self.
  assert (Hk : users_keyed store) by keyed.
  exact (conj Hk (@destroy_twice P F self as_bob store Hk)).
Defined.

(** Bob logs out with the key of alice's token. *)
Lemma logout_foreign_key_run :
  let self := detail "destroy" "tmp-a" in
  user as_bob = Authenticated bob
  ∧ kwargs self !! "pk" = Some (KwStr "tmp-a")
  ∧ (∀ t, temporary_tokens store !! "tmp-a" = Some t →
          TemporaryToken.user t ≠ User.id bob)
  ∧ respond (@TemporaryTokenDestroy.destroy P Se self as_bob) store =
      (store, mkResponse status.HTTP_404_NOT_FOUND None).
Proof.
  intros self.
  assert (H1 : user as_bob = Authenticated bob) by done.
  assert (H2 : kwargs self !! "pk" = Some (KwStr "tmp-a")) by run.
  assert (H3 : ∀ t, temporary_tokens store !! "tmp-a" = Some t →
                    TemporaryToken.user t ≠ User.id bob).
  { intros t Ht.
    assert (Ha : temporary_tokens store !! "tmp-a"
                 = Some (TemporaryToken.mk "tmp-a" 1)) by run.
    rewrite Ha in Ht. injection Ht as <-. vm_compute. discriminate. }
  exact (conj H1 (conj H2 (conj H3
           (@logout_foreign_key P Se self as_bob store "tmp-a" bob H1 H2 H3)))).
Defined.

(** Bob logs out with his own key, twice. *)
Lemma logout_once_run :
  let self := detail "destroy" "tmp-b" in
  let t := TemporaryToken.mk "tmp-b" 2 in
  let w' := with_temporary_tokens (delete "tmp-b" (temporary_tokens store)) store in
  user as_bob = Authenticated bob
  ∧ kwargs self !! "pk" = Some (KwStr "tmp-b")
  ∧ temporary_tokens store !! "tmp-b" = Some t
  ∧ TemporaryToken.key t = "tmp-b"
  ∧ TemporaryToken.user t = User.id bob
  ∧ forallb (λ p, @has_object_permission P p as_bob self (TemporaryTokenObj t))
            (@DEFAULT_PERMISSION_CLASSES Se) = true
  ∧ respond (@TemporaryTokenDestroy.destroy P Se self as_bob) store =
      (w', mkResponse status.HTTP_204_NO_CONTENT None)
  ∧ respond (@TemporaryTokenDestroy.destroy P Se self as_bob) w' =
      (w', mkResponse status.HTTP_404_NOT_FOUND None).
Proof.
  intros self t w'.
  assert (H1 : user as_bob = Authenticated bob) by done.
  assert (H2 : kwargs self !! "pk" = Some (KwStr "tmp-b")) by run.
  assert (H3 : temporary_tokens store !! "tmp-b" = Some t) by run.
  assert (H4 : TemporaryToken.key t = "tmp-b") by done.
  assert (H5 : TemporaryToken.user t = User.id bob) by done.
  assert (H6 : forallb (λ p, @has_object_permission P p as_bob self
                               (TemporaryTokenObj t))
                 (@DEFAULT_PERMISSION_CLASSES Se) = true) by done.
  destruct (@logout_once P Se self as_bob store "tmp-b" t bob H1 H2 H3 H4 H5 H6)
    as (Hfirst & _ & _ & Hsecond).
  exact (conj H1 (conj H2 (conj H3 (conj H4 (conj H5 (conj H6
           (conj Hfirst Hsecond))))))).
Defined.

(** Bob logs in with a wrong password. *)
Lemma login_invalid_credentials_run :
  let request :=
    anonymous {[ "email" := "bob@example.org"; "password" := "wrong" ]} in
  let errors : gmap string JVal :=
    {[ "non_field_errors" := JList ["Unable to log in with provided credentials."] ]} in
  @CustomAuthTokenSerializer L store request = inl errors
  ∧ respond (@ObtainTemporaryAuthToken.post L request) store =
      (store, mkResponse status.HTTP_400_BAD_REQUEST (Some errors)).
Proof.
  intros request errors.
  assert (He : @CustomAuthTokenSerializer L store request = inl errors) by run.
  exact (conj He (@login_invalid_credentials L request store errors He)).
Defined.

(** Bob logs in, then logs out with the key he was given. *)
Lemma login_then_logout_run :
  let request :=
    anonymous {[ "email" := "bob@example.org"; "password" := "b" ]} in
  let t := TemporaryToken.mk "tmp-bob@example.org" 2 in
  let w1 := with_temporary_tokens
              (<["tmp-bob@example.org" := t]> (temporary_tokens store)) store in
  let self := detail "destroy" "tmp-bob@example.org" in
  @CustomAuthTokenSerializer L store request = inr bob
  ∧ @get_temporary_token L bob store = (w1, Return t)
  ∧ temporary_tokens store !! TemporaryToken.key t = None
  ∧ temporary_tokens w1 = <[TemporaryToken.key t := t]> (temporary_tokens store)
  ∧ TemporaryToken.user t = User.id bob
  ∧ user as_bob = Authenticated bob
  ∧ kwargs self !! "pk" = Some (KwStr (TemporaryToken.key t))
  ∧ forallb (λ p, @has_object_permission P p as_bob self (TemporaryTokenObj t))
            (@DEFAULT_PERMISSION_CLASSES Se) = true
  ∧ temporary_tokens
      (fst (@TemporaryTokenDestroy.destroy P Se self as_bob w1))
    = temporary_tokens store.
Proof.
  intros request t w1 self.
  assert (H1 : @CustomAuthTokenSerializer L store request = inr bob) by run.
  assert (H2 : @get_temporary_token L bob store = (w1, Return t)) by run.
  assert (H3 : temporary_tokens store !! TemporaryToken.key t = None) by run.
  assert (H4 : temporary_tokens w1
               = <[TemporaryToken.key t := t]> (temporary_tokens store)) by done.
  assert (H5 : TemporaryToken.user t = User.id bob) by done.
  assert (H6 : user as_bob = Authenticated bob) by done.
  assert (H7 : kwargs self !! "pk" = Some (KwStr (TemporaryToken.key t))) by run.
  assert (H8 : forallb (λ p, @has_object_permission P p as_bob self
                               (TemporaryTokenObj t))
                 (@DEFAULT_PERMISSION_CLASSES Se) = true) by done.
  destruct (@login_then_logout P Se L request store bob w1 t self as_bob
              H1 H2 H3 H4 H5 H6 H7 H8) as (_ & _ & Hback).
  exact (conj H1 (conj H2 (conj H3 (conj H4 (conj H5 (conj H6 (conj H7 (conj H8
           Hback)))))))).
Defined.

(** A change-password request without a new password. *)
Lemma change_password_invalid_data_run :
  let request := anonymous {[ "token" := "pwd-2" ]} in
  let errors : gmap string JVal :=
    {[ "non_field_errors" := JList ["token and new_password are required."] ]} in
  @ChangePasswordSerializer S store request = Some errors
  ∧ respond (@ChangePassword.post S F Mo request) store =
      (store, mkResponse status.HTTP_400_BAD_REQUEST (Some errors)).
Proof.
  intros request errors.
  assert (He : @ChangePasswordSerializer S store request = Some errors) by run.
  exact (conj He (@change_password_invalid_data S F Mo request store errors He)).
Defined.
End MoreRuns.
